(** * Plan-my-day: the planner backend (backend/server.py) and the venue
      seeding script (backend/populate_db.py), embedded in Rocq.

    Conventions of the embedding.
    - Python [int] is [Z]; Python [float] is a rational [Q]: a rating that
      is NaN or infinite is outside the embedding; Python [str] is [string]
      over [ascii], and [str.lower] lowers the letters A-Z only.
    - A MongoDB document ([Dict] in the source) is a record whose fields are
      options: [None] is an absent key, and a key that is present holds a
      value of the type the pydantic model declares for it.
    - Code that can raise returns [result]; [try ... except Exception] is
      [try_except].
    - A [datetime] is the number of minutes since 1900-01-01 00:00, the date
      [datetime.strptime(s, "%H:%M")] attaches to a time of day; adding a
      [timedelta] raises OverflowError outside the years 1..9999.
    - The module-level client of the openai package is synchronous: its
      [create] returns the completion itself, which is not awaitable.
    - An [int] written to MongoDB must fit in 8 bytes.
    - [print] calls are not modelled.
    - The HTTP client, the chat-completion client, the JSON parser, the clock
      and the uuid generator are arguments of the functions that call them. *)

From Stdlib Require Import ZArith QArith List String Ascii Bool Lia.
From Stdlib Require Import Sorting.Sorted Sorting.Permutation.
Import ListNotations.

Local Open Scope string_scope.
Local Open Scope list_scope.
Local Open Scope Z_scope.

(** ** Exceptions *)

Module Exc.

(** The exception classes that the modelled code can meet.  All of them
    derive from [Exception]. *)
Inductive exn : Type :=
| KeyError (key : string)
| IndexError
| TypeError
| ValueError
| OverflowError
| ValidationError (model : string)
| JSONDecodeError
| TransportError (msg : string)
| TimeoutException
| HTTPStatusError (status_code : Z)
| APIError (msg : string)
| HTTPException (status_code : Z) (detail : string).

Inductive result (A : Type) : Type :=
| Ok (a : A)
| Raise (e : exn).
Arguments Ok {A} a.
Arguments Raise {A} e.

Definition bind {A B : Type} (m : result A) (k : A -> result B) : result B :=
  match m with
  | Ok a => k a
  | Raise e => Raise e
  end.

(** [try: body except Exception as e: handler e] *)
Definition try_except {A : Type} (body : result A) (handler : exn -> result A)
  : result A :=
  match body with
  | Ok a => Ok a
  | Raise e => handler e
  end.

(** [d[key]] on a document whose entry for [key] is [entry]. *)
Definition getitem {A : Type} (key : string) (entry : option A) : result A :=
  match entry with
  | Some a => Ok a
  | None => Raise (KeyError key)
  end.

(** [d.get(key, default)] *)
Definition get_default {A : Type} (entry : option A) (default : A) : A :=
  match entry with
  | Some a => a
  | None => default
  end.

Fixpoint mapM {A B : Type} (f : A -> result B) (l : list A) : result (list B) :=
  match l with
  | [] => Ok []
  | x :: t =>
      bind (f x) (fun y => bind (mapM f t) (fun ys => Ok (y :: ys)))
  end.

Definition is_ok {A : Type} (m : result A) : bool :=
  match m with Ok _ => true | Raise _ => false end.

End Exc.
Import Exc.

Notation "x <- m ;; k" := (bind m (fun x => k))
  (at level 61, m at next level, right associativity).

(** ** Strings: [str.lower] and the [in] operator

    [lower] lowers the letters A-Z and leaves every other character as it
    is; Python also lowers the cased letters outside ASCII.  The two are used
    by the matching loop only. *)

Module Str.

Definition lower_ascii (c : ascii) : ascii :=
  let n := nat_of_ascii c in
  if (65 <=? n)%nat && (n <=? 90)%nat then ascii_of_nat (n + 32) else c.

Fixpoint lower (s : string) : string :=
  match s with
  | EmptyString => EmptyString
  | String c t => String (lower_ascii c) (lower t)
  end.

(** [contains needle hay] is Python's [needle in hay] on strings. *)
Fixpoint contains (needle hay : string) : bool :=
  String.prefix needle hay ||
  match hay with
  | EmptyString => false
  | String _ t => contains needle t
  end.

End Str.

(** ** Data model (the pydantic models of server.py) *)

Record Location : Type := mkLocation {
  lat : Q;
  lng : Q;
  address : string
}.

Record PlanRequest : Type := mkPlanRequest {
  req_location : Location;
  budget : Z;
  interests : list string;
  duration : string;
  group_size : Z
}.

Record Venue : Type := mkVenue {
  id : string;
  name : string;
  category : string;
  venue_location : Location;
  price_range : string;
  rating : Q;
  description : string;
  popular_items : list string;
  opening_hours : string;
  estimated_duration : Z;
  booking_url : option string
}.

Record WeatherData : Type := mkWeatherData {
  temperature : Q;
  weather_description : string;
  feels_like : Q;
  humidity : Z;
  weather_main : string
}.

Record ItineraryItem : Type := mkItineraryItem {
  venue : Venue;
  start_time : string;
  end_time : string;
  notes : string
}.

Record DayPlan : Type := mkDayPlan {
  plan_id : string;
  plan_location : Location;
  date : string;
  weather : WeatherData;
  total_budget : Z;
  estimated_cost : Z;
  itinerary : list ItineraryItem;
  created_at : Z
}.

(** ** Venue documents

    What the venues collection holds: the planner receives [List[Dict]].
    [popular_dishes] is a key that only populate_db.py writes. *)

Record LocationDoc : Type := mkLocationDoc {
  doc_lat : option Q;
  doc_lng : option Q;
  doc_address : option string
}.

Record VenueDoc : Type := mkVenueDoc {
  doc_id : option string;
  doc_name : option string;
  doc_category : option string;
  doc_location : option LocationDoc;
  doc_price_range : option string;
  doc_rating : option Q;
  doc_description : option string;
  doc_popular_items : option (list string);
  doc_popular_dishes : option (list string);
  doc_opening_hours : option string;
  doc_estimated_duration : option Z;
  doc_booking_url : option string
}.

(** A required field of a pydantic model. *)
Definition required {A : Type} (model : string) (entry : option A) : result A :=
  match entry with
  | Some a => Ok a
  | None => Raise (ValidationError model)
  end.

(** The validation of a [Location] nested in the model [model]: a failure is
    reported as a validation error of the enclosing model. *)
Definition Location_validate (model : string) (d : LocationDoc)
  : result Location :=
  la <- required model (doc_lat d) ;;
  ln <- required model (doc_lng d) ;;
  ad <- required model (doc_address d) ;;
  Ok (mkLocation la ln ad).

(** The constructor call of [Venue] with the keys of [d] as keywords: every
    field without a default is required, keys the model does not declare are
    ignored. *)
Definition Venue_validate (d : VenueDoc) : result Venue :=
  i <- required "Venue" (doc_id d) ;;
  n <- required "Venue" (doc_name d) ;;
  c <- required "Venue" (doc_category d) ;;
  ld <- required "Venue" (doc_location d) ;;
  l <- Location_validate "Venue" ld ;;
  p <- required "Venue" (doc_price_range d) ;;
  r <- required "Venue" (doc_rating d) ;;
  ds <- required "Venue" (doc_description d) ;;
  o <- required "Venue" (doc_opening_hours d) ;;
  e <- required "Venue" (doc_estimated_duration d) ;;
  Ok (mkVenue i n c l p r ds (get_default (doc_popular_items d) [])
              o e (doc_booking_url d)).

(** The document a [Venue] serialises to. *)
Definition Venue_doc (v : Venue) : VenueDoc :=
  let l := venue_location v in
  mkVenueDoc (Some (id v)) (Some (name v)) (Some (category v))
    (Some (mkLocationDoc (Some (lat l)) (Some (lng l)) (Some (address l))))
    (Some (price_range v)) (Some (rating v)) (Some (description v))
    (Some (popular_items v)) None (Some (opening_hours v))
    (Some (estimated_duration v)) (booking_url v).

(** ** Times of day: [strptime] and [strftime] with the format "%H:%M" *)

Module Clock.

Definition minutes_per_day : Z := 1440.

Definition digit (n : Z) : ascii := ascii_of_nat (48 + Z.to_nat n).

Definition two_digits (n : Z) : string :=
  String (digit (n / 10)) (String (digit (n mod 10)) EmptyString).

(** [t.strftime("%H:%M")] *)
Definition strftime (t : Z) : string :=
  let tod := t mod minutes_per_day in
  (two_digits (tod / 60) ++ ":" ++ two_digits (tod mod 60))%string.

Definition digit_value (c : ascii) : option Z :=
  let n := nat_of_ascii c in
  if (48 <=? n)%nat && (n <=? 57)%nat then Some (Z.of_nat (n - 48)) else None.

(** A field of one or two digits, as "%H" and "%M" read it. *)
Definition number (s : string) : option Z :=
  match s with
  | String d0 EmptyString => digit_value d0
  | String d1 (String d0 EmptyString) =>
      match digit_value d1, digit_value d0 with
      | Some a, Some b => Some (10 * a + b)
      | _, _ => None
      end
  | _ => None
  end.

(** The text before the first colon and the text after it. *)
Fixpoint split_colon (s : string) : option (string * string) :=
  match s with
  | EmptyString => None
  | String c t =>
      if Ascii.eqb c ":" then Some (EmptyString, t)
      else match split_colon t with
           | Some (h, m) => Some (String c h, m)
           | None => None
           end
  end.

(** [datetime.strptime(s, "%H:%M")]: the minute of the day, on 1900-01-01.
    The hour and the minute have one or two digits each. *)
Definition strptime (s : string) : result Z :=
  match split_colon s with
  | Some (hs, ms) =>
      match number hs, number ms with
      | Some h, Some m =>
          if (h <? 24) && (m <? 60) then Ok (60 * h + m) else Raise ValueError
      | _, _ => Raise ValueError
      end
  | None => Raise ValueError
  end.

(** The first and the last minute a [datetime] can hold: 0001-01-01 00:00
    and 9999-12-31 23:59. *)
Definition datetime_min : Z := -998776800.
Definition datetime_max : Z := 4260188159.

Definition in_range (t : Z) : bool := (datetime_min <=? t) && (t <=? datetime_max).

(** [t + timedelta(minutes=n)]: OverflowError when the sum (or the
    [timedelta] itself) is out of range. *)
Definition add_minutes (t n : Z) : result Z :=
  if in_range (t + n) then Ok (t + n) else Raise OverflowError.

End Clock.


(** ** [sorted(l, key=..., reverse=True)]

    Python's sort is stable, also with [reverse=True]: elements whose keys
    compare equal keep their order.  The keys are computed first, one call
    per element from left to right. *)

Module Sort.
Section Keyed.
Context {A : Type}.

(** [x] goes in front of the first element whose key is not greater. *)
Fixpoint insert_desc (k : Q) (x : A) (l : list (Q * A)) : list (Q * A) :=
  match l with
  | [] => [(k, x)]
  | (k', y) :: t =>
      if Qle_bool k' k then (k, x) :: l else (k', y) :: insert_desc k x t
  end.

Definition sort_desc (l : list (Q * A)) : list (Q * A) :=
  fold_right (fun kx acc => insert_desc (fst kx) (snd kx) acc) [] l.

Definition sorted_reverse (key : A -> result Q) (l : list A)
  : result (list A) :=
  keys <- mapM key l ;;
  Ok (map snd (sort_desc (combine keys l))).
End Keyed.
End Sort.

(** ** Mongo collections *)

Record DB : Type := mkDB {
  venues_collection : list VenueDoc;
  venues_indexes : list (string * string);
  plans_collection : list DayPlan
}.

Module Mongo.

(** [venues_collection.delete_many({})] *)
Definition delete_many_venues (db : DB) : DB :=
  mkDB [] (venues_indexes db) (plans_collection db).

(** [venues_collection.insert_many(docs)] *)
Definition insert_many_venues (docs : list VenueDoc) (db : DB) : DB :=
  mkDB (venues_collection db ++ docs) (venues_indexes db) (plans_collection db).

(** [venues_collection.count_documents({})] *)
Definition count_venues (db : DB) : Z :=
  Z.of_nat (List.length (venues_collection db)).

(** [venues_collection.find({}).to_list(n)] *)
Definition find_venues (n : nat) (db : DB) : list VenueDoc :=
  firstn n (venues_collection db).

Definition index_eqb (a b : string * string) : bool :=
  String.eqb (fst a) (fst b) && String.eqb (snd a) (snd b).

(** [venues_collection.create_index([(field, kind)])]: an index that exists
    already is left as it is. *)
Definition create_index_venues (spec : string * string) (db : DB) : DB :=
  if existsb (index_eqb spec) (venues_indexes db) then db
  else mkDB (venues_collection db) (venues_indexes db ++ [spec])
            (plans_collection db).

(** An [int] that BSON can hold: 8 bytes, signed. *)
Definition bson_int (z : Z) : bool :=
  (-9223372036854775808 <=? z) && (z <? 9223372036854775808).

(** Every [int] of the document of a plan fits. *)
Definition bson_encodable (plan : DayPlan) : bool :=
  bson_int (total_budget plan) &&
  (bson_int (estimated_cost plan) &&
   bson_int (humidity (weather plan)) &&
   forallb (fun item => bson_int (estimated_duration (venue item)))
           (itinerary plan)).

(** [plans_collection.insert_one(plan.dict(by_alias=True))]: the encoder
    raises OverflowError on an [int] beyond 8 bytes. *)
Definition insert_one_plan (plan : DayPlan) (db : DB) : result DB :=
  if bson_encodable plan
  then Ok (mkDB (venues_collection db) (venues_indexes db)
                (plans_collection db ++ [plan]))
  else Raise OverflowError.

End Mongo.

(** ** External services: what they answer *)

(** The JSON body of the weather API, as far as the code reads it. *)
Record OwmMain : Type := mkOwmMain {
  owm_temp : option Q;
  owm_feels_like : option Q;
  owm_humidity : option Z
}.

Record OwmWeather : Type := mkOwmWeather {
  owm_description : option string;
  owm_main : option string
}.

Record OwmData : Type := mkOwmData {
  data_main : option OwmMain;
  data_weather : option (list OwmWeather)
}.

Record HttpResponse : Type := mkHttpResponse {
  status_code : Z;
  json : result OwmData        (* [response.json()] *)
}.

(** The chat completion, as far as the code reads it. *)
Record ChatMessage : Type := mkChatMessage { content : option string }.
Record Choice : Type := mkChoice { message : ChatMessage }.
Record ChatCompletion : Type := mkChatCompletion { choices : list Choice }.

(** What [json.loads] gives for a response of the requested shape: an object
    whose key "itinerary", when present, holds a list of objects with string
    values. *)
Record ProposedStop : Type := mkProposedStop {
  stop_venue_name : option string;
  stop_start_time : option string;
  stop_end_time : option string;
  stop_notes : option string
}.

Record AiData : Type := mkAiData {
  ai_itinerary : option (list ProposedStop)
}.

(** [l[0]] *)
Definition first_item {A : Type} (l : list A) : result A :=
  match l with
  | x :: _ => Ok x
  | [] => Raise IndexError
  end.

(** [response.raise_for_status()] *)
Definition raise_for_status (response : HttpResponse) : result unit :=
  if (200 <=? status_code response) && (status_code response <? 300)
  then Ok tt
  else Raise (HTTPStatusError (status_code response)).

Definition WEATHER_FALLBACK : WeatherData :=
  mkWeatherData 22.0 "partly cloudy" 24.0 65 "Clouds".

Definition newline : string := String (ascii_of_nat 10) EmptyString.

Definition weather_url : string :=
  "http://api.openweathermap.org/data/2.5/weather".

Section Services.

(** [client.get(url, params=..., timeout=...)] of httpx: the parameters are
    lat, lon, appid and units. *)
Variable httpx_get :
  string -> Q * Q * string * string -> Z -> result HttpResponse.

(** [openai.chat.completions.create(model=..., messages=[system, user],
    response_format=...)], a synchronous call: it returns the completion or
    raises. *)
Variable chat_completions_create :
  string -> string * string -> string -> result ChatCompletion.

(** [json.loads] *)
Variable json_loads : string -> result AiData.

Variable WEATHER_API_KEY : string.

(** *** WeatherService *)

Definition get_current_weather (lat lng : Q) : result WeatherData :=
  let url := weather_url in
  let params := (lat, lng, WEATHER_API_KEY, "metric") in
  try_except
    (response <- httpx_get url params 10 ;;
     _ <- raise_for_status response ;;
     data <- json response ;;
     main <- getitem "main" (data_main data) ;;
     temp <- getitem "temp" (owm_temp main) ;;
     ws <- getitem "weather" (data_weather data) ;;
     w0 <- first_item ws ;;
     desc <- getitem "description" (owm_description w0) ;;
     feels <- getitem "feels_like" (owm_feels_like main) ;;
     hum <- getitem "humidity" (owm_humidity main) ;;
     wmain <- getitem "main" (owm_main w0) ;;
     Ok (mkWeatherData temp desc feels hum wmain))
    (fun e => Ok WEATHER_FALLBACK).

(** *** AIPlanner *)

(** The sort key [lambda x: x['rating']]. *)
Definition rating_key (x : VenueDoc) : result Q :=
  getitem "rating" (doc_rating x).

(** The loop of [fallback_planning]; [itinerary] is the list built so far. *)
Fixpoint fallback_loop (suitable_venues : list VenueDoc) (current_time : Z)
                       (itinerary : list ItineraryItem)
  : result (list ItineraryItem) :=
  match suitable_venues with
  | [] => Ok itinerary
  | venue_data :: rest =>
      let start_time_obj := current_time in
      minutes <- getitem "estimated_duration"
                   (doc_estimated_duration venue_data) ;;
      end_time_obj <- Clock.add_minutes start_time_obj minutes ;;
      v <- Venue_validate venue_data ;;
      let item := mkItineraryItem v (Clock.strftime start_time_obj)
                    (Clock.strftime end_time_obj) "A great choice." in
      next_time <- Clock.add_minutes end_time_obj 30 ;;
      fallback_loop rest next_time (itinerary ++ [item])
  end.

Definition fallback_planning (request : PlanRequest) (weather : WeatherData)
                             (venues : list VenueDoc)
  : result (list ItineraryItem) :=
  sorted_venues <- Sort.sorted_reverse rating_key venues ;;
  let suitable_venues := firstn 5 sorted_venues in
  current_time <- Clock.strptime "09:00" ;;
  fallback_loop suitable_venues current_time [].

(** One line of [venue_info]. *)
Definition venue_line (v : VenueDoc) : result string :=
  n <- getitem "name" (doc_name v) ;;
  c <- getitem "category" (doc_category v) ;;
  d <- getitem "description" (doc_description v) ;;
  Ok ("- " ++ n ++ " (" ++ c ++ "): " ++ d)%string.

(** [next((v for v in venues if v["name"].lower() in
    item["venue_name"].lower()), None)] *)
Fixpoint venue_match (venues : list VenueDoc) (item : ProposedStop)
  : result (option VenueDoc) :=
  match venues with
  | [] => Ok None
  | v :: rest =>
      n <- getitem "name" (doc_name v) ;;
      vn <- getitem "venue_name" (stop_venue_name item) ;;
      if Str.contains (Str.lower n) (Str.lower vn) then Ok (Some v)
      else venue_match rest item
  end.

(** The loop over the proposed stops.  A matched document has the key
    "name", so it is a non-empty dict and [if venue_match:] holds. *)
Fixpoint match_loop (venues : list VenueDoc) (items : list ProposedStop)
                    (itinerary_items : list ItineraryItem)
  : result (list ItineraryItem) :=
  match items with
  | [] => Ok itinerary_items
  | item :: rest =>
      m <- venue_match venues item ;;
      match m with
      | Some vm =>
          v <- Venue_validate vm ;;
          match_loop venues rest
            (itinerary_items ++
             [mkItineraryItem v
                (get_default (stop_start_time item) "N/A")
                (get_default (stop_end_time item) "N/A")
                (get_default (stop_notes item) "")])
      | None => match_loop venues rest itinerary_items
      end
  end.

Definition system_prompt : string := "You are an expert day planner...".

Definition user_prompt (request : PlanRequest) : string :=
  ("Create a detailed day plan for " ++
   address (req_location request) ++ "...")%string.

(** [await x] on an object that is not awaitable.  The completion that the
    synchronous [create] of the module-level client returns is such an
    object. *)
Definition await_object {A : Type} (x : A) : result A := Raise TypeError.

(** The body of the [try] of [generate_itinerary].  The call to [create]
    runs to its end and returns (or raises); the [await] is applied to what
    it returned. *)
Definition generative_path (request : PlanRequest) (weather : WeatherData)
                           (venues : list VenueDoc)
  : result (list ItineraryItem) :=
  lines <- mapM venue_line (firstn 15 venues) ;;
  let venue_info := String.concat newline lines in
  completion <- chat_completions_create "gpt-4o"
                  (system_prompt, user_prompt request) "json_object" ;;
  response <- await_object completion ;;
  choice <- first_item (choices response) ;;
  text <- match content (message choice) with
          | Some t => Ok t
          | None => Raise TypeError
          end ;;
  ai_data <- json_loads text ;;
  match_loop venues (get_default (ai_itinerary ai_data) []) [].

Definition generate_itinerary (request : PlanRequest) (weather : WeatherData)
                              (venues : list VenueDoc)
  : result (list ItineraryItem) :=
  try_except (generative_path request weather venues)
             (fun e => fallback_planning request weather venues).

(** *** The endpoint POST /api/plan *)

(** [price_map] of [create_day_plan]. *)
Definition price_map : list (string * Z) :=
  [("$", 25); ("$$", 50); ("$$$", 100); ("$$$$", 150)].

(** [d.get(key, default)] on a dict given by its items. *)
Fixpoint dict_get (d : list (string * Z)) (key : string) (default : Z) : Z :=
  match d with
  | [] => default
  | (k, v) :: t => if String.eqb k key then v else dict_get t key default
  end.

(** [sum(price_map.get(item.venue.price_range, 0) for item in itinerary)] *)
Definition sum_prices (itinerary : list ItineraryItem) : Z :=
  fold_left Z.add
    (map (fun item => dict_get price_map (price_range (venue item)) 0)
         itinerary) 0.

(** [uuid.uuid4()], [datetime.now()] and its rendering as a date. *)
Variable uuid4 : string.
Variable now : Z.
Variable today : string.

(** [str(e)] *)
Variable exn_str : exn -> string.

Definition create_day_plan (request : PlanRequest) (db : DB)
  : result DayPlan * DB :=
  let body :=
    weather <- get_current_weather (lat (req_location request))
                                   (lng (req_location request)) ;;
    let venues := Mongo.find_venues 100 db in
    itinerary <- generate_itinerary request weather venues ;;
    _ <- match itinerary with
         | [] => Raise (HTTPException 500 "Failed to generate itinerary.")
         | _ :: _ => Ok tt
         end ;;
    let estimated_cost := sum_prices itinerary in
    let day_plan := mkDayPlan uuid4 (req_location request) today weather
                      (budget request) estimated_cost itinerary now in
    db' <- Mongo.insert_one_plan day_plan db ;;
    Ok (day_plan, db') in
  match body with
  | Ok (day_plan, db') => (Ok day_plan, db')
  | Raise e => (Raise (HTTPException 500 (exn_str e)), db)
  end.

End Services.

(** The status line of the reply to POST /api/plan. *)
Definition reply_status (r : result DayPlan) : Z :=
  match r with
  | Ok _ => 200
  | Raise (HTTPException status _) => status
  | Raise _ => 500
  end.

(** *** Sample data of server.py *)

(** [SAMPLE_VENUES]; the two ids are [str(uuid.uuid4())] at import time. *)
Definition SAMPLE_VENUES (id1 id2 : string) : list VenueDoc :=
  [ mkVenueDoc (Some id1) (Some "The Coffee Corner") (Some "restaurant")
      (Some (mkLocationDoc (Some 40.7589%Q) (Some (-73.9851)%Q)
                           (Some "123 Broadway, NYC")))
      (Some "$$") (Some 4.5%Q) (Some "Cozy coffee shop") None None
      (Some "7:00 AM - 6:00 PM") (Some 45) None;
    mkVenueDoc (Some id2) (Some "Central Park") (Some "attraction")
      (Some (mkLocationDoc (Some 40.7821%Q) (Some (-73.9654)%Q)
                           (Some "Central Park, NYC")))
      (Some "$") (Some 4.8%Q) (Some "Iconic urban park") None None
      (Some "6:00 AM - 1:00 AM") (Some 120) None ].

(** [init_sample_data] *)
Definition init_sample_data (id1 id2 : string) (db : DB) : DB :=
  if Mongo.count_venues db =? 0
  then Mongo.insert_many_venues (SAMPLE_VENUES id1 id2) db
  else db.

(** ** The seeding script populate_db.py *)

Module PopulateDb.

Definition our_venue (name category : string) (lat lng : Q)
    (price_range : string) (rating : Q)
    (description : option string) (popular_dishes : option (list string))
    (booking_url : option string) : VenueDoc :=
  mkVenueDoc None (Some name) (Some category)
    (Some (mkLocationDoc (Some lat) (Some lng) None))
    (Some price_range) (Some rating) description None popular_dishes
    None None booking_url.

Definition OUR_VENUES : list VenueDoc :=
  [ our_venue "Tech Cafe 2049" "restaurant" 12.9716 77.5946 "$$" 4.7
      None (Some ["Quantum Quiche"; "Neural-Net Nachos"])
      (Some "https://example.com/book/techcafe");
    our_venue "The Green Leaf Bistro" "restaurant" 12.9345 77.6244 "$$$" 4.9
      None (Some ["Avocado Toast"; "Kale Smoothie"; "Vegan Burger"])
      (Some "https://example.com/book/greenleaf");
    our_venue "City Art Gallery" "attraction" 12.9757 77.5929 "$" 4.6
      (Some "Features modern and contemporary art from local artists.")
      None None;
    our_venue "Innovate Hub" "activity" 12.9279 77.6271 "Free" 4.8
      (Some "A co-working and event space for tech enthusiasts. Hosts weekly meetups.")
      None None;
    our_venue "The Escape Room: Sector 7" "activity" 12.9352 77.6169 "$$$" 4.9
      (Some "A challenging sci-fi themed escape room adventure.")
      None (Some "https://example.com/book/escaperoom7");
    our_venue "Rooftop Cinema Club" "event" 12.9592 77.6455 "$$" 4.7
      (Some "Outdoor movie screenings with classic films and city views.")
      None (Some "https://example.com/book/rooftopcinema");
    our_venue "Downtown Music Hall" "event" 12.9845 77.5995 "$$$" 4.6
      (Some "Live music venue featuring indie bands and international artists.")
      None (Some "https://example.com/book/downtownmusic") ].

(** [populate_database]: the new state of the database and the total it
    prints last. *)
Definition populate_database (db : DB) : DB * Z :=
  let db1 := Mongo.delete_many_venues db in
  let db2 := Mongo.insert_many_venues OUR_VENUES db1 in
  let db3 := Mongo.create_index_venues ("location", "2dsphere") db2 in
  (db3, Mongo.count_venues db3).

End PopulateDb.

(** ** Vocabulary of the statements *)

(** The candidate documents read as [Venue] records, when all of them
    validate. *)
Definition parse_venues (venues : list VenueDoc) : result (list Venue) :=
  mapM Venue_validate venues.

(** Venues by rating, best first, ties in the order of the list. *)
Definition ranked (vs : list Venue) : list Venue :=
  map snd (Sort.sort_desc (map (fun v => (rating v, v)) vs)).

(** Visits packed one after the other from the instant [t], 30 minutes
    apart. *)
Fixpoint pack (vs : list Venue) (t : Z) : list ItineraryItem :=
  match vs with
  | [] => []
  | v :: rest =>
      let e := t + estimated_duration v in
      mkItineraryItem v (Clock.strftime t) (Clock.strftime e) "A great choice."
      :: pack rest (e + 30)
  end.

(** The running clock of [pack] stays in the range of [datetime]: after each
    visit, and after the 30 minutes that follow it. *)
Fixpoint fits_clock (vs : list Venue) (t : Z) : bool :=
  match vs with
  | [] => true
  | v :: rest =>
      let e := t + estimated_duration v in
      Clock.in_range e && Clock.in_range (e + 30) && fits_clock rest (e + 30)
  end.

Definition same_rating (r : Q) (v : Venue) : bool := Qeq_bool (rating v) r.

Definition rating_ge (a b : ItineraryItem) : Prop :=
  (rating (venue b) <= rating (venue a))%Q.

Definition is_prefix {A : Type} (l1 l2 : list A) : Prop :=
  exists rest, l2 = l1 ++ rest.

Definition validates (d : VenueDoc) (v : Venue) : Prop := Venue_validate d = Ok v.

(** Order and equality of sort keys. *)
Definition key_ge {A : Type} (p q : Q * A) : Prop := (fst q <= fst p)%Q.
Definition key_is {A : Type} (r : Q) (p : Q * A) : bool := Qeq_bool (fst p) r.

(** The check that one hour and minute read back as printed. *)
Definition hm_check (h m : nat) : bool :=
  match Clock.strptime (Clock.two_digits (Z.of_nat h) ++ ":" ++
                        Clock.two_digits (Z.of_nat m))%string with
  | Ok v => v =? 60 * Z.of_nat h + Z.of_nat m
  | Raise _ => false
  end.

(** *** Chat services for the examples *)

(** A chat service and a parser that answer with the stops [stops]. *)
Definition chat_says (text : string)
  : string -> string * string -> string -> result ChatCompletion :=
  fun _ _ _ => Ok (mkChatCompletion [mkChoice (mkChatMessage (Some text))]).

Definition loads_as (stops : list ProposedStop) : string -> result AiData :=
  fun _ => Ok (mkAiData (Some stops)).

Definition chat_down
  : string -> string * string -> string -> result ChatCompletion :=
  fun _ _ _ => Raise (APIError "connection error").

Definition stop_at (vn s e : string) : ProposedStop :=
  mkProposedStop (Some vn) (Some s) (Some e) None.

(** *** Cost *)

(** The price table in the words of the specification: free is 0, $ is 25,
    $$ is 50, $$$ is 100, $$$$ is 150, any other tier is 0. *)
Definition price_table (tier : string) : Z :=
  if String.eqb tier "free" then 0
  else if String.eqb tier "$" then 25
  else if String.eqb tier "$$" then 50
  else if String.eqb tier "$$$" then 100
  else if String.eqb tier "$$$$" then 150
  else 0.

Definition sum_Z (l : list Z) : Z := fold_right Z.add 0 l.

Definition tier (item : ItineraryItem) : string := price_range (venue item).

(** *** Services for the examples *)

Definition http_down
  : string -> Q * Q * string * string -> Z -> result HttpResponse :=
  fun _ _ _ => Raise (TransportError "connection refused").

Definition http_status (code : Z)
  : string -> Q * Q * string * string -> Z -> result HttpResponse :=
  fun _ _ _ => Ok (mkHttpResponse code (Raise JSONDecodeError)).

Definition class_name (e : exn) : string :=
  match e with
  | KeyError _ => "KeyError"
  | IndexError => "IndexError"
  | TypeError => "TypeError"
  | ValueError => "ValueError"
  | OverflowError => "OverflowError"
  | ValidationError _ => "ValidationError"
  | JSONDecodeError => "JSONDecodeError"
  | TransportError _ => "TransportError"
  | TimeoutException => "TimeoutException"
  | HTTPStatusError _ => "HTTPStatusError"
  | APIError _ => "APIError"
  | HTTPException _ detail => detail
  end.

Definition empty_db : DB := mkDB [] [] [].

(** *** Sample inputs *)

Definition sample_request : PlanRequest :=
  mkPlanRequest (mkLocation 40.7589 (-73.9851) "123 Broadway, NYC")
                100 ["food"; "parks"] "full day" 1.

Definition sample_docs : list VenueDoc := SAMPLE_VENUES "venue-1" "venue-2".

Definition coffee_corner : Venue :=
  mkVenue "venue-1" "The Coffee Corner" "restaurant"
    (mkLocation 40.7589 (-73.9851) "123 Broadway, NYC")
    "$$" 4.5 "Cozy coffee shop" [] "7:00 AM - 6:00 PM" 45 None.

Definition central_park : Venue :=
  mkVenue "venue-2" "Central Park" "attraction"
    (mkLocation 40.7821 (-73.9654) "Central Park, NYC")
    "$" 4.8 "Iconic urban park" [] "6:00 AM - 1:00 AM" 120 None.

(** A visit of five thousand million minutes. *)
Definition endless_visit : Venue :=
  mkVenue "venue-3" "The Long Now" "attraction"
    (mkLocation 40.7 (-73.9) "NYC")
    "free" 4.2 "A very long visit" [] "always" 5000000000 None.

(** Five venues of three hours each, all rated 4.0. *)
Definition long_visit (n : string) : Venue :=
  mkVenue n n "attraction" (mkLocation 40.7 (-73.9) "NYC")
    "$" 4.0 "A long visit" [] "always" 180 None.

Definition long_day : list Venue :=
  [long_visit "A"; long_visit "B"; long_visit "C"; long_visit "D";
   long_visit "E"].

Definition sample_itinerary : list ItineraryItem :=
  [ mkItineraryItem central_park "09:00" "11:00" "A great choice.";
    mkItineraryItem coffee_corner "11:30" "12:15" "A great choice." ].

Definition late_item : ItineraryItem :=
  mkItineraryItem (long_visit "E") "23:00" "02:00" "A great choice.".

Definition long_day_itinerary : list ItineraryItem :=
  [ mkItineraryItem (long_visit "A") "09:00" "12:00" "A great choice.";
    mkItineraryItem (long_visit "B") "12:30" "15:30" "A great choice.";
    mkItineraryItem (long_visit "C") "16:00" "19:00" "A great choice.";
    mkItineraryItem (long_visit "D") "19:30" "22:30" "A great choice.";
    late_item ].

(** A reply that proposes one stop no candidate matches, and a reply that
    proposes a matching stop and a stop no candidate matches. *)
Definition museum_stops : list ProposedStop :=
  [stop_at "City Museum" "10:00" "12:00"].

Definition coffee_stops : list ProposedStop :=
  [stop_at "Breakfast at the coffee corner" "08:00" "09:00";
   stop_at "City Museum" "10:00" "12:00"].

Definition reply_text : string := "{...}".

(** *** More sample inputs *)

Definition sample_db : DB := mkDB sample_docs [] [].

(** A candidate that carries a name and nothing else. *)
Definition unrated_doc : VenueDoc :=
  mkVenueDoc None (Some "Pop-up market") None None None None None None None
             None None None.

Definition huge_budget_request : PlanRequest :=
  mkPlanRequest (mkLocation 40.7589 (-73.9851) "123 Broadway, NYC")
                1000000000000000000000000000000 [] "full day" 1.

Definition other_request : PlanRequest :=
  mkPlanRequest (mkLocation 40.7589 (-73.9851) "123 Broadway, NYC")
                0 [] "one hour" 12.

(** A weather service that answers 200 with the body [data]. *)
Definition http_says (data : OwmData)
  : string -> Q * Q * string * string -> Z -> result HttpResponse :=
  fun _ _ _ => Ok (mkHttpResponse 200 (Ok data)).

Definition rainy_main : OwmMain := mkOwmMain (Some 11.5%Q) (Some 9.0%Q) (Some 93).

Definition rainy_entry : OwmWeather := mkOwmWeather (Some "light rain") (Some "Rain").

Definition rainy_data : OwmData := mkOwmData (Some rainy_main) (Some [rainy_entry]).

Definition no_humidity_data : OwmData :=
  mkOwmData (Some (mkOwmMain (Some 11.5%Q) (Some 9.0%Q) None))
            (Some [rainy_entry]).

(** A catalog of one hundred documents. *)
Definition crowded_db : DB := mkDB (repeat (Venue_doc coffee_corner) 100) [] [].

(** * Properties *)

Example lower_coffee : Str.lower "The Coffee Corner" = "the coffee corner".
Proof. reflexivity. Qed.

Example contains_coffee :
  Str.contains (Str.lower "The Coffee Corner")
               (Str.lower "Visit the coffee corner first") = true.
Proof. reflexivity. Qed.

Example strptime_0900 : Clock.strptime "09:00" = Ok 540.
Proof. reflexivity. Qed.

Example strftime_0945 : Clock.strftime (540 + 45) = "09:45".
Proof. reflexivity. Qed.

Example strftime_next_day : Clock.strftime (540 + 900) = "00:00".
Proof. reflexivity. Qed.

(** ** The exception monad *)

Lemma bind_ok {A B : Type} (m : result A) (k : A -> result B) (b : B) :
  bind m k = Ok b -> exists a, m = Ok a /\ k a = Ok b.
Proof.
  destruct m as [a | e]; simpl; intros H.
  - exists a. split; [reflexivity | exact H].
  - discriminate H.
Qed.

Lemma mapM_Forall2 {A B : Type} (f : A -> result B) (l : list A) (l' : list B) :
  mapM f l = Ok l' <-> Forall2 (fun x y => f x = Ok y) l l'.
Proof.
  revert l'. induction l as [| x t IH]; intros l'; simpl.
  - split; intros H.
    + injection H as <-. constructor.
    + inversion H. reflexivity.
  - split; intros H.
    + apply bind_ok in H. destruct H as [y [Hy H]].
      apply bind_ok in H. destruct H as [ys [Hys H]].
      injection H as <-. constructor; [exact Hy | apply IH; exact Hys].
    + inversion H as [| ? y ? ys Hy Hys]; subst.
      rewrite Hy. simpl. apply IH in Hys. rewrite Hys. reflexivity.
Qed.

(** ** Validation *)

Lemma Venue_validate_fields (d : VenueDoc) (v : Venue) :
  Venue_validate d = Ok v ->
  doc_name d = Some (name v) /\
  doc_category d = Some (category v) /\
  doc_description d = Some (description v) /\
  doc_rating d = Some (rating v) /\
  doc_estimated_duration d = Some (estimated_duration v).
Proof.
  unfold Venue_validate, Location_validate.
  destruct d as [i n c l p r ds pi pd o e b]; simpl.
  destruct i, n, c, l as [[la ln ad] |], p, r, ds, o, e; simpl;
    try discriminate.
  all: destruct la, ln, ad; simpl; try discriminate.
  intros H. injection H as <-. simpl. repeat split.
Qed.

Lemma Venue_validate_doc (v : Venue) : Venue_validate (Venue_doc v) = Ok v.
Proof. destruct v as [i n c [la ln ad] p r ds pi o e b]. reflexivity. Qed.

(** ** The stable descending sort *)

Section SortFacts.
Context {A : Type}.
Implicit Types (l : list (Q * A)) (k r : Q) (x : A).

Lemma insert_desc_Forall (P : Q * A -> Prop) k x l :
  P (k, x) -> Forall P l -> Forall P (Sort.insert_desc k x l).
Proof.
  intros Hx Hl. induction Hl as [| [k' y] t Hy Ht IH]; simpl.
  - constructor; [exact Hx | constructor].
  - destruct (Qle_bool k' k).
    + constructor; [exact Hx |]. constructor; assumption.
    + constructor; assumption.
Qed.

Lemma sort_desc_Forall (P : Q * A -> Prop) l :
  Forall P l -> Forall P (Sort.sort_desc l).
Proof.
  induction 1 as [| [k x] t Hx Ht IH]; simpl.
  - constructor.
  - apply insert_desc_Forall; assumption.
Qed.

Lemma insert_desc_length k x l :
  List.length (Sort.insert_desc k x l) = S (List.length l).
Proof.
  induction l as [| [k' y] t IH]; simpl; [reflexivity |].
  destruct (Qle_bool k' k); simpl; [reflexivity | now rewrite IH].
Qed.

Lemma sort_desc_length l :
  List.length (Sort.sort_desc l) = List.length l.
Proof.
  induction l as [| [k x] t IH]; simpl; [reflexivity |].
  now rewrite insert_desc_length, IH.
Qed.

Lemma insert_desc_sorted k x l :
  StronglySorted key_ge l -> StronglySorted key_ge (Sort.insert_desc k x l).
Proof.
  induction 1 as [| [k' y] t Ht IH Hall]; simpl.
  - constructor; constructor.
  - destruct (Qle_bool k' k) eqn:E.
    + apply Qle_bool_iff in E. constructor.
      * constructor; assumption.
      * constructor; [exact E |].
        eapply Forall_impl; [| exact Hall].
        intros [k2 z] Hz. unfold key_ge in *. simpl in *.
        eapply Qle_trans; eassumption.
    + constructor; [exact IH |].
      apply insert_desc_Forall; [| exact Hall].
      unfold key_ge; simpl.
      destruct (Qlt_le_dec k k') as [Hlt | Hle].
      * apply Qlt_le_weak; exact Hlt.
      * apply Qle_bool_iff in Hle. congruence.
Qed.

Lemma sort_desc_sorted l : StronglySorted key_ge (Sort.sort_desc l).
Proof.
  induction l as [| [k x] t IH]; simpl.
  - constructor.
  - apply insert_desc_sorted; exact IH.
Qed.

(** Insertion only passes elements with a strictly greater key: it never
    changes the order among elements of one key. *)
Lemma insert_desc_filter r k x l :
  filter (key_is r) (Sort.insert_desc k x l) =
  if Qeq_bool k r then (k, x) :: filter (key_is r) l
  else filter (key_is r) l.
Proof.
  induction l as [| [k' y] t IH]; simpl.
  - unfold key_is at 1; simpl. destruct (Qeq_bool k r); reflexivity.
  - destruct (Qle_bool k' k) eqn:E.
    + simpl. unfold key_is at 1; simpl. destruct (Qeq_bool k r); reflexivity.
    + simpl. rewrite IH.
      change (key_is r (k', y)) with (Qeq_bool k' r).
      destruct (Qeq_bool k r) eqn:Ek; [| reflexivity].
      destruct (Qeq_bool k' r) eqn:Ek'; [| reflexivity].
      exfalso. apply Qeq_bool_iff in Ek, Ek'.
      assert (Hle : (k' <= k)%Q).
      { rewrite Ek, Ek'. apply Qle_refl. }
      apply Qle_bool_iff in Hle. congruence.
Qed.

Lemma sort_desc_filter r l :
  filter (key_is r) (Sort.sort_desc l) = filter (key_is r) l.
Proof.
  induction l as [| [k x] t IH]; simpl; [reflexivity |].
  rewrite insert_desc_filter, IH.
  change (key_is r (k, x)) with (Qeq_bool k r).
  destruct (Qeq_bool k r); reflexivity.
Qed.
End SortFacts.

Lemma insert_desc_Forall2 {A B : Type} (R : A -> B -> Prop) k x y
      (l : list (Q * A)) (l' : list (Q * B)) :
  R x y ->
  Forall2 (fun p q => fst p = fst q /\ R (snd p) (snd q)) l l' ->
  Forall2 (fun p q => fst p = fst q /\ R (snd p) (snd q))
          (Sort.insert_desc k x l) (Sort.insert_desc k y l').
Proof.
  intros Hxy Hl. induction Hl as [| [k1 a] [k2 b] t t' [Hk Hab] Ht IH]; simpl.
  - constructor; [split; [reflexivity | exact Hxy] | constructor].
  - simpl in Hk. subst k2. destruct (Qle_bool k1 k).
    + constructor; [split; [reflexivity | exact Hxy] |].
      constructor; [split; [reflexivity | exact Hab] | exact Ht].
    + constructor; [split; [reflexivity | exact Hab] | exact IH].
Qed.

Lemma sort_desc_Forall2 {A B : Type} (R : A -> B -> Prop)
      (l : list (Q * A)) (l' : list (Q * B)) :
  Forall2 (fun p q => fst p = fst q /\ R (snd p) (snd q)) l l' ->
  Forall2 (fun p q => fst p = fst q /\ R (snd p) (snd q))
          (Sort.sort_desc l) (Sort.sort_desc l').
Proof.
  induction 1 as [| [k1 a] [k2 b] t t' [Hk Hab] Ht IH]; simpl.
  - constructor.
  - simpl in Hk, Hab. subst k2. apply insert_desc_Forall2; assumption.
Qed.

(** ** The fallback strategy on documents that validate *)

Lemma parse_venues_Forall2 (venues : list VenueDoc) (vs : list Venue) :
  parse_venues venues = Ok vs <-> Forall2 validates venues vs.
Proof. apply mapM_Forall2. Qed.

Lemma rating_keys (venues : list VenueDoc) (vs : list Venue) :
  Forall2 validates venues vs ->
  mapM rating_key venues = Ok (map rating vs).
Proof.
  induction 1 as [| d v ds vs' Hd Hds IH]; simpl; [reflexivity |].
  apply Venue_validate_fields in Hd. destruct Hd as (_ & _ & _ & Hr & _).
  unfold rating_key at 1. rewrite Hr. simpl. rewrite IH. reflexivity.
Qed.

Lemma Forall2_firstn {A B : Type} (R : A -> B -> Prop) (n : nat)
      (l : list A) (l' : list B) :
  Forall2 R l l' -> Forall2 R (firstn n l) (firstn n l').
Proof.
  intros H. revert n. induction H as [| x y t t' Hxy Ht IH]; intros [| n]; simpl;
    constructor; auto.
Qed.

Lemma sorted_reverse_validates (venues : list VenueDoc) (vs : list Venue) :
  Forall2 validates venues vs ->
  exists sorted_venues,
    Sort.sorted_reverse rating_key venues = Ok sorted_venues /\
    Forall2 validates sorted_venues (ranked vs).
Proof.
  intros H. unfold Sort.sorted_reverse. rewrite (rating_keys _ _ H). simpl.
  eexists. split; [reflexivity |]. unfold ranked.
  assert (Hpairs :
    Forall2 (fun p q => fst p = fst q /\ validates (snd p) (snd q))
            (combine (map rating vs) venues)
            (map (fun v => (rating v, v)) vs)).
  { induction H as [| d v ds vs' Hd Hds IH]; simpl; constructor; auto. }
  apply sort_desc_Forall2 in Hpairs.
  induction Hpairs as [| p q t t' [_ Hpq] Ht IH]; simpl; constructor; auto.
Qed.

Lemma fallback_loop_validates (ds : list VenueDoc) (vs : list Venue) :
  Forall2 validates ds vs ->
  forall (t : Z) (acc : list ItineraryItem),
    fallback_loop ds t acc =
    if fits_clock vs t then Ok (acc ++ pack vs t) else Raise OverflowError.
Proof.
  induction 1 as [| d v ds' vs' Hd Hds IH]; intros t acc; simpl.
  - now rewrite app_nil_r.
  - destruct (Venue_validate_fields _ _ Hd) as (_ & _ & _ & _ & He).
    rewrite He. simpl. unfold Clock.add_minutes at 1.
    destruct (Clock.in_range (t + estimated_duration v)); simpl;
      [| reflexivity].
    unfold validates in Hd. rewrite Hd. simpl.
    unfold Clock.add_minutes at 1.
    destruct (Clock.in_range (t + estimated_duration v + 30)); simpl;
      [| reflexivity].
    rewrite IH, <- app_assoc. reflexivity.
Qed.

(** On documents that validate, the fallback ranks the venues, keeps five
    and packs them from 09:00, or raises when the clock leaves the range of
    [datetime]. *)
Lemma fallback_planning_validates request weather venues vs :
  parse_venues venues = Ok vs ->
  fallback_planning request weather venues =
  if fits_clock (firstn 5 (ranked vs)) 540
  then Ok (pack (firstn 5 (ranked vs)) 540)
  else Raise OverflowError.
Proof.
  intros H. apply parse_venues_Forall2 in H.
  destruct (sorted_reverse_validates _ _ H) as [sv [Hs Hv]].
  unfold fallback_planning. rewrite Hs. simpl.
  apply (Forall2_firstn _ 5) in Hv.
  rewrite (fallback_loop_validates _ _ Hv). reflexivity.
Qed.

Lemma pack_venues (vs : list Venue) (t : Z) : map venue (pack vs t) = vs.
Proof.
  revert t. induction vs as [| v rest IH]; intros t; simpl; [reflexivity |].
  now rewrite IH.
Qed.

Lemma pack_length (vs : list Venue) (t : Z) :
  List.length (pack vs t) = List.length vs.
Proof. rewrite <- (pack_venues vs t) at 2. now rewrite length_map. Qed.

Lemma ranked_length (vs : list Venue) : List.length (ranked vs) = List.length vs.
Proof. unfold ranked. now rewrite length_map, sort_desc_length, length_map. Qed.

Lemma ranked_pairs_keyed (vs : list Venue) :
  Forall (fun p => fst p = rating (snd p))
         (Sort.sort_desc (map (fun v => (rating v, v)) vs)).
Proof.
  apply sort_desc_Forall. apply Forall_forall. intros p Hp.
  apply in_map_iff in Hp. destruct Hp as [v [<- _]]. reflexivity.
Qed.

Lemma keyed_filter (r : Q) (l : list (Q * Venue)) :
  Forall (fun p => fst p = rating (snd p)) l ->
  map snd (filter (key_is r) l) = filter (same_rating r) (map snd l).
Proof.
  induction 1 as [| [k v] t Hk Ht IH]; simpl; [reflexivity |].
  simpl in Hk. subst k. unfold key_is at 1, same_rating at 1. simpl.
  destruct (Qeq_bool (rating v) r); simpl; now rewrite IH.
Qed.

(** Stability: the venues of one rating come out in the order they went in. *)
Lemma ranked_stable (r : Q) (vs : list Venue) :
  filter (same_rating r) (ranked vs) = filter (same_rating r) vs.
Proof.
  unfold ranked. rewrite <- keyed_filter by apply ranked_pairs_keyed.
  rewrite sort_desc_filter.
  rewrite keyed_filter.
  - now rewrite map_map, map_id.
  - apply Forall_forall. intros p Hp.
    apply in_map_iff in Hp. destruct Hp as [v [<- _]]. reflexivity.
Qed.

Lemma ranked_sorted (vs : list Venue) :
  StronglySorted (fun a b => (rating b <= rating a)%Q) (ranked vs).
Proof.
  unfold ranked.
  pose proof (sort_desc_sorted (map (fun v => (rating v, v)) vs)) as Hs.
  pose proof (ranked_pairs_keyed vs) as Hk.
  induction Hs as [| p t Ht IH Hall]; simpl; constructor.
  - apply IH. now inversion Hk.
  - inversion Hk as [| ? ? Hp Hkt]; subst.
    rewrite Forall_forall in *. intros v Hv.
    apply in_map_iff in Hv. destruct Hv as [q [<- Hq]].
    specialize (Hall q Hq). unfold key_ge in Hall.
    rewrite <- Hp, <- (Hkt q Hq). exact Hall.
Qed.

Lemma StronglySorted_firstn {A : Type} (R : A -> A -> Prop) (n : nat) (l : list A) :
  StronglySorted R l -> StronglySorted R (firstn n l).
Proof.
  intros H. revert n. induction H as [| x t Ht IH Hall]; intros [| n]; simpl;
    try constructor.
  - apply IH.
  - rewrite Forall_forall in *. intros y Hy. apply Hall.
    rewrite <- (firstn_skipn n t). apply in_or_app. now left.
Qed.

Lemma filter_firstn_prefix {A : Type} (p : A -> bool) (n : nat) (l : list A) :
  is_prefix (filter p (firstn n l)) (filter p l).
Proof.
  exists (filter p (skipn n l)).
  rewrite <- filter_app, firstn_skipn. reflexivity.
Qed.

Lemma StronglySorted_map {A B : Type} (R : B -> B -> Prop) (f : A -> B) (l : list A) :
  StronglySorted R (map f l) -> StronglySorted (fun a b => R (f a) (f b)) l.
Proof.
  induction l as [| x t IH]; simpl; intros H; constructor;
    inversion H as [| ? ? Ht Hall]; subst.
  - now apply IH.
  - rewrite Forall_forall in *. intros y Hy. apply Hall. now apply in_map.
Qed.

(** ** What the fallback returns whenever it returns *)

Lemma add_minutes_ok (t n r : Z) : Clock.add_minutes t n = Ok r -> r = t + n.
Proof.
  unfold Clock.add_minutes. destruct (Clock.in_range (t + n)); intros H;
    [injection H as <-; reflexivity | discriminate H].
Qed.

Lemma fallback_loop_inv (ds : list VenueDoc) :
  forall (t : Z) (acc items : list ItineraryItem),
    fallback_loop ds t acc = Ok items ->
    exists vs, Forall2 validates ds vs /\ items = acc ++ pack vs t.
Proof.
  induction ds as [| d ds' IH]; intros t acc items H; simpl in H.
  - injection H as <-. exists []. split; [constructor | now rewrite app_nil_r].
  - apply bind_ok in H. destruct H as [minutes [Hm H]].
    apply bind_ok in H. destruct H as [e [Hend H]].
    apply bind_ok in H. destruct H as [v [Hv H]].
    apply bind_ok in H. destruct H as [next [Hnext H]].
    apply IH in H. destruct H as [vs [Hvs ->]].
    destruct (Venue_validate_fields _ _ Hv) as (_ & _ & _ & _ & He).
    rewrite He in Hm. injection Hm as <-.
    apply add_minutes_ok in Hend, Hnext. subst e next.
    exists (v :: vs). split; [constructor; assumption |].
    simpl. now rewrite <- app_assoc.
Qed.

Lemma Forall2_length_eq {A B : Type} (R : A -> B -> Prop) (l : list A) (l' : list B) :
  Forall2 R l l' -> List.length l = List.length l'.
Proof. induction 1; simpl; congruence. Qed.

Lemma sorted_reverse_length {A : Type} (key : A -> result Q) (l sorted : list A) :
  Sort.sorted_reverse key l = Ok sorted -> List.length sorted = List.length l.
Proof.
  unfold Sort.sorted_reverse. intros H.
  apply bind_ok in H. destruct H as [keys [Hk H]]. injection H as <-.
  apply mapM_Forall2, Forall2_length_eq in Hk.
  rewrite length_map, sort_desc_length, length_combine, <- Hk.
  apply Nat.min_id.
Qed.

Lemma fallback_planning_inv request weather venues itinerary :
  fallback_planning request weather venues = Ok itinerary ->
  exists kept,
    itinerary = pack kept 540 /\
    List.length kept = Nat.min 5 (List.length venues).
Proof.
  unfold fallback_planning. intros H.
  apply bind_ok in H. destruct H as [sv [Hs H]].
  apply bind_ok in H. destruct H as [t0 [Ht H]].
  injection Ht as <-.
  apply fallback_loop_inv in H. destruct H as [kept [Hk ->]].
  exists kept. split; [reflexivity |].
  rewrite <- (Forall2_length_eq _ _ _ Hk), length_firstn.
  now rewrite (sorted_reverse_length _ _ _ Hs).
Qed.

(** ** Reading "%H:%M" back *)

Lemma hm_check_all :
  forallb (fun h => forallb (hm_check h) (seq 0 60)) (seq 0 24) = true.
Proof. vm_compute. reflexivity. Qed.

Lemma strptime_two_digits (h m : Z) :
  0 <= h < 24 -> 0 <= m < 60 ->
  Clock.strptime (Clock.two_digits h ++ ":" ++ Clock.two_digits m)%string =
  Ok (60 * h + m).
Proof.
  intros Hh Hm. pose proof hm_check_all as H.
  rewrite forallb_forall in H.
  specialize (H (Z.to_nat h)). rewrite in_seq in H.
  assert (Hh' : (0 <= Z.to_nat h < 0 + 24)%nat) by lia.
  specialize (H Hh'). rewrite forallb_forall in H.
  specialize (H (Z.to_nat m)). rewrite in_seq in H.
  assert (Hm' : (0 <= Z.to_nat m < 0 + 60)%nat) by lia.
  specialize (H Hm'). unfold hm_check in H.
  rewrite !Z2Nat.id in H by lia.
  destruct (Clock.strptime _) as [v | e]; [| discriminate].
  apply Z.eqb_eq in H. now subst.
Qed.

Lemma strptime_strftime (t : Z) :
  Clock.strptime (Clock.strftime t) = Ok (t mod 1440).
Proof.
  unfold Clock.strftime, Clock.minutes_per_day.
  pose proof (Z.mod_pos_bound t 1440 ltac:(lia)) as Hb.
  set (tod := t mod 1440) in *.
  rewrite strptime_two_digits.
  - f_equal. symmetry. apply Z.div_mod. lia.
  - split; [apply Z.div_pos; lia | apply Z.div_lt_upper_bound; lia].
  - apply Z.mod_pos_bound. lia.
Qed.

(** ** The packed schedule *)

Lemma pack_item_instants (vs : list Venue) :
  forall (t : Z) (item : ItineraryItem),
    In item (pack vs t) ->
    exists s,
      start_time item = Clock.strftime s /\
      end_time item = Clock.strftime (s + estimated_duration (venue item)).
Proof.
  induction vs as [| v rest IH]; intros t item Hin; simpl in Hin.
  - contradiction.
  - destruct Hin as [<- | Hin].
    + exists t. split; reflexivity.
    + eapply IH; exact Hin.
Qed.

Lemma pack_consecutive (l1 : list ItineraryItem) :
  forall (vs : list Venue) (t : Z) (prev next : ItineraryItem)
         (l2 : list ItineraryItem),
    pack vs t = l1 ++ prev :: next :: l2 ->
    exists e,
      end_time prev = Clock.strftime e /\
      start_time next = Clock.strftime (e + 30).
Proof.
  induction l1 as [| x l1' IH]; intros vs t prev next l2 H.
  - destruct vs as [| v [| v' rest]]; simpl in H; try discriminate.
    injection H as <- <- _.
    exists (t + estimated_duration v). split; reflexivity.
  - destruct vs as [| v rest]; simpl in H; [discriminate |].
    injection H as _ H. eapply IH; exact H.
Qed.

Lemma item_clock (item : ItineraryItem) :
  (exists s,
      start_time item = Clock.strftime s /\
      end_time item = Clock.strftime (s + estimated_duration (venue item))) ->
  exists s,
    Clock.strptime (start_time item) = Ok s /\
    0 <= s < 1440 /\
    Clock.strptime (end_time item) =
    Ok ((s + estimated_duration (venue item)) mod 1440).
Proof.
  intros [s0 [Hs He]]. exists (s0 mod 1440).
  rewrite Hs, He, !strptime_strftime.
  split; [reflexivity |]. split; [apply Z.mod_pos_bound; lia |].
  now rewrite Zplus_mod_idemp_l.
Qed.

(** ** Properties of the fallback strategy *)

(** C2, as stated, fails on two kinds of non-empty candidate list.  A
    document that validates as a [Venue] but whose duration takes the clock
    past the year 9999 makes the fallback strategy raise OverflowError; and the
    documents the seeding script writes, which carry no "estimated_duration",
    make it raise KeyError. *)
Lemma fallback_planning_raises :
  parse_venues [Venue_doc endless_visit] = Ok [endless_visit] /\
  fallback_planning sample_request WEATHER_FALLBACK [Venue_doc endless_visit] =
  Raise OverflowError /\
  PopulateDb.OUR_VENUES <> [] /\
  fallback_planning sample_request WEATHER_FALLBACK PopulateDb.OUR_VENUES =
  Raise (KeyError "estimated_duration").
Proof.
  split; [reflexivity |]. split; [reflexivity |].
  split; [discriminate | reflexivity].
Qed.

(** C2, amended. For every non-empty list of candidate documents that
    validate as [Venue] records [vs] (every field of the model present, the
    ratings numbers), and whose five best-rated venues keep the running clock
    in the range of [datetime], the fallback strategy returns an itinerary of
    between 1 and 5 items (as many as there are venues, up to five), ordered
    by non-increasing rating; for every rating, the venues of that rating in
    the itinerary are an initial part of the venues of that rating in the
    input, in the same order. *)
Theorem fallback_planning_top_rated
    (request : PlanRequest) (weather : WeatherData)
    (venues : list VenueDoc) (vs : list Venue) :
  venues <> [] ->
  parse_venues venues = Ok vs ->
  fits_clock (firstn 5 (ranked vs)) 540 = true ->
  exists itinerary,
    fallback_planning request weather venues = Ok itinerary /\
    List.length itinerary = Nat.min 5 (List.length venues) /\
    (1 <= List.length itinerary <= 5)%nat /\
    StronglySorted rating_ge itinerary /\
    forall r, is_prefix (filter (same_rating r) (map venue itinerary))
                        (filter (same_rating r) vs).
Proof.
  intros Hne Hvs Hfits.
  exists (pack (firstn 5 (ranked vs)) 540).
  assert (Hlen : List.length vs = List.length venues).
  { symmetry. eapply Forall2_length_eq. apply parse_venues_Forall2. exact Hvs. }
  assert (Hn : List.length (pack (firstn 5 (ranked vs)) 540) =
               Nat.min 5 (List.length venues)).
  { now rewrite pack_length, length_firstn, ranked_length, Hlen. }
  split; [rewrite (fallback_planning_validates _ _ _ _ Hvs), Hfits;
          reflexivity |].
  split; [exact Hn |].
  split.
  { rewrite Hn. destruct venues; [congruence | simpl List.length; lia]. }
  split.
  - apply StronglySorted_map with (f := venue)
      (R := fun a b => (rating b <= rating a)%Q).
    rewrite pack_venues. apply StronglySorted_firstn, ranked_sorted.
  - intros r. rewrite pack_venues, <- (ranked_stable r vs).
    apply filter_firstn_prefix.
Qed.

Lemma fallback_planning_top_rated_witness :
  exists itinerary,
    fallback_planning sample_request WEATHER_FALLBACK sample_docs = Ok itinerary /\
    List.length itinerary = Nat.min 5 (List.length sample_docs) /\
    (1 <= List.length itinerary <= 5)%nat /\
    StronglySorted rating_ge itinerary /\
    forall r, is_prefix (filter (same_rating r) (map venue itinerary))
                        (filter (same_rating r) [coffee_corner; central_park]).
Proof.
  apply (fallback_planning_top_rated sample_request WEATHER_FALLBACK
           sample_docs [coffee_corner; central_park]).
  - discriminate.
  - reflexivity.
  - reflexivity.
Defined.

Example fallback_sample :
  fallback_planning sample_request WEATHER_FALLBACK sample_docs =
  Ok sample_itinerary.
Proof. reflexivity. Qed.

(** C3. Whenever the fallback strategy returns an itinerary for a non-empty
    venue list, its first item starts at exactly 09:00; every item's end time
    is its start time plus the venue's estimated duration in minutes; and
    every item that follows another starts 30 minutes after the end of the
    one before.  Times are the printed "%H:%M" values read back as minutes
    of the day, so the sums are taken on the 24-hour clock. *)
Theorem fallback_planning_schedule
    (request : PlanRequest) (weather : WeatherData)
    (venues : list VenueDoc) (itinerary : list ItineraryItem) :
  venues <> [] ->
  fallback_planning request weather venues = Ok itinerary ->
  (exists first rest, itinerary = first :: rest /\ start_time first = "09:00") /\
  (forall item, In item itinerary ->
     exists s,
       Clock.strptime (start_time item) = Ok s /\
       Clock.strptime (end_time item) =
       Ok ((s + estimated_duration (venue item)) mod 1440)) /\
  (forall l1 prev next l2, itinerary = l1 ++ prev :: next :: l2 ->
     exists e,
       Clock.strptime (end_time prev) = Ok e /\
       Clock.strptime (start_time next) = Ok ((e + 30) mod 1440)).
Proof.
  intros Hne H. apply fallback_planning_inv in H.
  destruct H as [kept [-> Hlen]]. repeat split.
  - destruct kept as [| v rest].
    + destruct venues; [congruence | discriminate Hlen].
    + simpl. eexists. eexists. split; reflexivity.
  - intros item Hin. apply pack_item_instants in Hin.
    apply item_clock in Hin. destruct Hin as [s [Hs [_ He]]].
    exists s. split; assumption.
  - intros l1 prev next l2 Heq. apply pack_consecutive in Heq.
    destruct Heq as [e [-> ->]]. exists (e mod 1440).
    rewrite !strptime_strftime. split; [reflexivity |].
    now rewrite Zplus_mod_idemp_l.
Qed.

Lemma fallback_planning_schedule_witness :
  (exists first rest,
      sample_itinerary = first :: rest /\ start_time first = "09:00") /\
  (forall item, In item sample_itinerary ->
     exists s,
       Clock.strptime (start_time item) = Ok s /\
       Clock.strptime (end_time item) =
       Ok ((s + estimated_duration (venue item)) mod 1440)) /\
  (forall l1 prev next l2, sample_itinerary = l1 ++ prev :: next :: l2 ->
     exists e,
       Clock.strptime (end_time prev) = Ok e /\
       Clock.strptime (start_time next) = Ok ((e + 30) mod 1440)).
Proof.
  apply (fallback_planning_schedule sample_request WEATHER_FALLBACK
           sample_docs sample_itinerary).
  - discriminate.
  - reflexivity.
Defined.

(** C4, as stated, fails: five venues of three hours each are packed from
    09:00, and the last visit runs from 23:00 to 02:00 of the next day, so its
    end time is the smaller time of day. *)
Lemma fallback_visit_crosses_midnight :
  fallback_planning sample_request WEATHER_FALLBACK (map Venue_doc long_day) =
  Ok long_day_itinerary /\
  In late_item long_day_itinerary /\
  Clock.strptime (start_time late_item) = Ok 1380 /\
  Clock.strptime (end_time late_item) = Ok 120 /\
  ~ (1380 < 120).
Proof.
  split; [reflexivity |].
  split; [simpl; tauto |].
  split; [reflexivity |].
  split; [reflexivity | lia].
Qed.

(** C4, amended. For every item of an itinerary the fallback strategy returns
    whose venue has a positive estimated duration and whose visit ends before
    midnight (start minute of the day plus duration below 1440), the end time
    is strictly greater than the start time, both read as times of day. *)
Theorem fallback_end_after_start
    (request : PlanRequest) (weather : WeatherData)
    (venues : list VenueDoc) (itinerary : list ItineraryItem)
    (item : ItineraryItem) (s : Z) :
  fallback_planning request weather venues = Ok itinerary ->
  In item itinerary ->
  0 < estimated_duration (venue item) ->
  Clock.strptime (start_time item) = Ok s ->
  s + estimated_duration (venue item) < 1440 ->
  exists e, Clock.strptime (end_time item) = Ok e /\ s < e.
Proof.
  intros H Hin Hpos Hs Hday. apply fallback_planning_inv in H.
  destruct H as [kept [-> _]].
  apply pack_item_instants, item_clock in Hin.
  destruct Hin as [s' [Hs' [Hb He]]].
  rewrite Hs in Hs'. injection Hs' as <-.
  exists (s + estimated_duration (venue item)).
  rewrite He, Z.mod_small by lia. split; [reflexivity | lia].
Qed.

Lemma fallback_end_after_start_witness :
  exists e, Clock.strptime (end_time (mkItineraryItem coffee_corner
                              "11:30" "12:15" "A great choice.")) = Ok e /\
            690 < e.
Proof.
  apply (fallback_end_after_start sample_request WEATHER_FALLBACK
           sample_docs sample_itinerary
           (mkItineraryItem coffee_corner "11:30" "12:15" "A great choice.")
           690).
  - reflexivity.
  - simpl. tauto.
  - simpl. lia.
  - reflexivity.
  - simpl. lia.
Defined.

(** C10. The fallback strategy does not read the request or the weather: for
    every venue list and any two pairs of request and weather, it returns the
    same result, which is a function of the venue list alone. *)
Theorem fallback_planning_venues_only :
  (forall (venues : list VenueDoc)
          (request1 request2 : PlanRequest) (weather1 weather2 : WeatherData),
      fallback_planning request1 weather1 venues =
      fallback_planning request2 weather2 venues) /\
  (exists f : list VenueDoc -> result (list ItineraryItem),
      forall request weather venues,
        fallback_planning request weather venues = f venues).
Proof.
  split.
  - intros venues request1 request2 weather1 weather2. reflexivity.
  - exists (fallback_planning sample_request WEATHER_FALLBACK).
    intros request weather venues. reflexivity.
Qed.

(** ** The generative path *)

(** The [await] is applied to a completion, which is not awaitable: whatever
    the chat service does, the body of the [try] raises. *)
Lemma generative_path_always_raises chat_completions_create json_loads
      request weather venues :
  exists e,
    generative_path chat_completions_create json_loads request weather venues
    = Raise e.
Proof.
  unfold generative_path.
  destruct (mapM venue_line (firstn 15 venues)) as [lines | e]; simpl;
    [| eexists; reflexivity].
  destruct (chat_completions_create _ _ _) as [completion | e]; simpl;
    eexists; reflexivity.
Qed.

Lemma generate_itinerary_is_fallback chat_completions_create json_loads
      request weather venues :
  generate_itinerary chat_completions_create json_loads request weather venues =
  fallback_planning request weather venues.
Proof.
  unfold generate_itinerary.
  destruct (generative_path_always_raises chat_completions_create json_loads
              request weather venues) as [e ->].
  reflexivity.
Qed.

(** C1. For every outcome of the generative path, the result of the planner
    is the result of the fallback strategy on the same inputs: when the chat
    call raises (a network error), and when it returns a reply, whatever that
    reply is, whatever it would parse to and however many of its stops would
    match a candidate, none included. *)
Theorem generate_itinerary_fallback
    (chat_completions_create :
       string -> string * string -> string -> result ChatCompletion)
    (json_loads : string -> result AiData)
    (request : PlanRequest) (weather : WeatherData) (venues : list VenueDoc) :
  generate_itinerary chat_completions_create json_loads request weather venues =
  fallback_planning request weather venues.
Proof.
  unfold generate_itinerary, generative_path.
  destruct (mapM venue_line (firstn 15 venues)) as [lines | e]; simpl.
  - destruct (chat_completions_create _ _ _) as [completion | e]; simpl.
    + unfold await_object. reflexivity.
    + reflexivity.
  - reflexivity.
Qed.

(** C8, evaluated on a reply that proposes "Breakfast at the coffee corner"
    from 08:00 to 09:00, and a second stop that names no candidate: the
    completion is returned, awaiting it raises TypeError before the reply is
    parsed or matched, and the planner returns the fallback itinerary, not an
    item for The Coffee Corner at the times of the reply. *)
Theorem generate_itinerary_reply_unmatched :
  generative_path (chat_says reply_text) (loads_as coffee_stops)
                  sample_request WEATHER_FALLBACK sample_docs = Raise TypeError /\
  generate_itinerary (chat_says reply_text) (loads_as coffee_stops)
                     sample_request WEATHER_FALLBACK sample_docs =
  Ok sample_itinerary /\
  sample_itinerary <> [mkItineraryItem coffee_corner "08:00" "09:00" ""].
Proof.
  split; [reflexivity |]. split; [reflexivity | discriminate].
Qed.

(** ** The weather lookup *)

Lemma try_except_total {A : Type} (body : result A) (a : A) :
  exists w, try_except body (fun _ => Ok a) = Ok w.
Proof. destruct body as [w | e]; simpl; eexists; reflexivity. Qed.

Lemma get_current_weather_total httpx_get WEATHER_API_KEY lat lng :
  exists w, get_current_weather httpx_get WEATHER_API_KEY lat lng = Ok w.
Proof. apply try_except_total. Qed.

(** C7. The weather lookup never raises: it returns a snapshot for every
    behaviour of the HTTP client.  When the request raises (a transport error
    or a timeout), or the response carries a status outside 200..299, the
    snapshot is the fixed fallback: temperature 22.0, "partly cloudy",
    feels-like 24.0, humidity 65, "Clouds". *)
Theorem get_current_weather_fallback
    (httpx_get : string -> Q * Q * string * string -> Z -> result HttpResponse)
    (WEATHER_API_KEY : string) (lat lng : Q) :
  let reply := httpx_get weather_url (lat, lng, WEATHER_API_KEY, "metric") 10 in
  (exists w, get_current_weather httpx_get WEATHER_API_KEY lat lng = Ok w) /\
  (forall e, reply = Raise e ->
     get_current_weather httpx_get WEATHER_API_KEY lat lng = Ok WEATHER_FALLBACK) /\
  (forall response, reply = Ok response ->
     ~ (200 <= status_code response < 300) ->
     get_current_weather httpx_get WEATHER_API_KEY lat lng = Ok WEATHER_FALLBACK) /\
  (temperature WEATHER_FALLBACK == 22)%Q /\
  weather_description WEATHER_FALLBACK = "partly cloudy" /\
  (feels_like WEATHER_FALLBACK == 24)%Q /\
  humidity WEATHER_FALLBACK = 65 /\
  weather_main WEATHER_FALLBACK = "Clouds".
Proof.
  intros reply. subst reply. split; [apply get_current_weather_total |].
  split; [| split].
  - intros e He. unfold get_current_weather. rewrite He. reflexivity.
  - intros response Hr Hstatus. unfold get_current_weather. rewrite Hr. simpl.
    unfold raise_for_status.
    destruct ((200 <=? status_code response) && (status_code response <? 300))
      eqn:E; [| reflexivity].
    apply andb_true_iff in E. destruct E as [E1 E2].
    apply Z.leb_le in E1. apply Z.ltb_lt in E2. lia.
  - repeat split; reflexivity.
Qed.

Lemma get_current_weather_fallback_witness :
  get_current_weather http_down "key" 40.7589 (-73.9851) = Ok WEATHER_FALLBACK /\
  get_current_weather (http_status 401) "key" 40.7589 (-73.9851) =
  Ok WEATHER_FALLBACK.
Proof.
  split.
  - refine (proj1 (proj2 (get_current_weather_fallback
                            http_down "key" 40.7589 (-73.9851)))
                  (TransportError "connection refused") _).
    reflexivity.
  - refine (proj1 (proj2 (proj2 (get_current_weather_fallback
                            (http_status 401) "key" 40.7589 (-73.9851))))
                  (mkHttpResponse 401 (Raise JSONDecodeError)) _ _).
    + reflexivity.
    + simpl. lia.
Defined.

(** ** Plan assembly *)

Lemma dict_get_price_map (t : string) : dict_get price_map t 0 = price_table t.
Proof.
  unfold price_map, price_table, dict_get.
  rewrite !(String.eqb_sym _ t).
  destruct (String.eqb t "free") eqn:E; [| reflexivity].
  apply String.eqb_eq in E. subst t. reflexivity.
Qed.

Lemma fold_left_add (l : list Z) (a : Z) : fold_left Z.add l a = a + sum_Z l.
Proof.
  revert a. induction l as [| x t IH]; intros a; simpl; [lia |].
  rewrite IH. lia.
Qed.

Lemma sum_prices_table (items : list ItineraryItem) :
  sum_prices items = sum_Z (map (fun item => price_table (tier item)) items).
Proof.
  unfold sum_prices. rewrite fold_left_add. simpl. f_equal.
  apply map_ext. intros item. apply dict_get_price_map.
Qed.

Lemma create_day_plan_ok httpx_get chat_completions_create json_loads
      WEATHER_API_KEY uuid4 now today exn_str request db plan db' :
  create_day_plan httpx_get chat_completions_create json_loads WEATHER_API_KEY
                  uuid4 now today exn_str request db = (Ok plan, db') ->
  exists w items,
    generate_itinerary chat_completions_create json_loads request w
                       (Mongo.find_venues 100 db) = Ok items /\
    items <> [] /\
    plan = mkDayPlan uuid4 (req_location request) today w (budget request)
                     (sum_prices items) items now /\
    Mongo.insert_one_plan plan db = Ok db'.
Proof.
  unfold create_day_plan.
  destruct (get_current_weather _ _ _ _) as [w | e]; simpl; [| discriminate].
  destruct (generate_itinerary _ _ _ _ _) as [items | e] eqn:Hg; simpl;
    [| discriminate].
  destruct items as [| i rest]; simpl; [discriminate |].
  destruct (Mongo.insert_one_plan _ db) as [db1 | e] eqn:Hi; simpl;
    [| discriminate].
  intros H. injection H as <- <-. exists w, (i :: rest).
  split; [exact Hg |]. split; [discriminate |].
  split; [reflexivity | exact Hi].
Qed.

(** C6. The estimated cost of a plan is the sum, over the items of its
    itinerary, of the price of the item's tier in the fixed table (free 0,
    $ 25, $$ 50, $$$ 100, $$$$ 150, anything else 0): the code's [price_map]
    lookup is that table; a $$ venue and a $ venue cost 75; and two
    itineraries with the same tiers cost the same. *)
Theorem estimated_cost_price_table :
  (forall items : list ItineraryItem,
      sum_prices items = sum_Z (map (fun item => price_table (tier item)) items)) /\
  (forall httpx_get chat_completions_create json_loads WEATHER_API_KEY
          uuid4 now today exn_str request db plan db',
      create_day_plan httpx_get chat_completions_create json_loads
                      WEATHER_API_KEY uuid4 now today exn_str request db
      = (Ok plan, db') ->
      estimated_cost plan =
      sum_Z (map (fun item => price_table (tier item)) (itinerary plan))) /\
  price_table "free" = 0 /\ price_table "$" = 25 /\ price_table "$$" = 50 /\
  price_table "$$$" = 100 /\ price_table "$$$$" = 150 /\
  (forall t, t <> "$" -> t <> "$$" -> t <> "$$$" -> t <> "$$$$" ->
             price_table t = 0) /\
  (forall a b : ItineraryItem,
      tier a = "$$" -> tier b = "$" -> sum_prices [a; b] = 75) /\
  (forall items1 items2 : list ItineraryItem,
      map tier items1 = map tier items2 -> sum_prices items1 = sum_prices items2).
Proof.
  split; [apply sum_prices_table |].
  split.
  { intros until db'. intros H. apply create_day_plan_ok in H.
    destruct H as (w & items & _ & _ & -> & _). simpl. apply sum_prices_table. }
  do 5 (split; [reflexivity |]).
  split.
  { intros t H1 H2 H3 H4. unfold price_table.
    destruct (String.eqb t "free"); [reflexivity |].
    destruct (String.eqb_spec t "$"); [contradiction |].
    destruct (String.eqb_spec t "$$"); [contradiction |].
    destruct (String.eqb_spec t "$$$"); [contradiction |].
    destruct (String.eqb_spec t "$$$$"); [contradiction | reflexivity]. }
  split.
  { intros a b Ha Hb. rewrite sum_prices_table. simpl. now rewrite Ha, Hb. }
  intros items1 items2 H. rewrite !sum_prices_table.
  rewrite <- !(map_map tier price_table). now rewrite H.
Qed.

Lemma estimated_cost_price_table_witness :
  sum_prices sample_itinerary = 75 /\
  sum_prices [late_item] = sum_prices [mkItineraryItem central_park "" "" ""].
Proof.
  split.
  - rewrite (proj1 estimated_cost_price_table). reflexivity.
  - apply (proj2 (proj2 (proj2 (proj2 (proj2 (proj2 (proj2 (proj2
             (proj2 estimated_cost_price_table))))))))).
    reflexivity.
Defined.

(** ** Plan creation over an empty itinerary *)

Lemma generate_itinerary_no_venues chat_completions_create json_loads
      request weather :
  generate_itinerary chat_completions_create json_loads request weather [] =
  Ok [].
Proof. rewrite generate_itinerary_is_fallback. reflexivity. Qed.

(** C5. On an empty venue list the fallback strategy returns the empty
    itinerary.  Whenever the planner hands plan creation an empty itinerary
    (as it does, whatever the services answer, when the venues collection is
    empty), plan creation raises an HTTP exception of status 500, returns no
    plan and leaves the database as it was: nothing is persisted. *)
Theorem create_day_plan_empty_itinerary
    httpx_get chat_completions_create json_loads
    (WEATHER_API_KEY uuid4 : string) (now : Z) (today : string)
    (exn_str : exn -> string) (request : PlanRequest) (db : DB) :
  let failure :=
    HTTPException 500
      (exn_str (HTTPException 500 "Failed to generate itinerary.")) in
  let outcome :=
    create_day_plan httpx_get chat_completions_create json_loads
                    WEATHER_API_KEY uuid4 now today exn_str request db in
  (forall weather, fallback_planning request weather [] = Ok []) /\
  (forall w,
      get_current_weather httpx_get WEATHER_API_KEY
        (lat (req_location request)) (lng (req_location request)) = Ok w ->
      generate_itinerary chat_completions_create json_loads request w
                         (Mongo.find_venues 100 db) = Ok [] ->
      outcome = (Raise failure, db) /\ reply_status (fst outcome) = 500) /\
  (venues_collection db = [] ->
      outcome = (Raise failure, db) /\ reply_status (fst outcome) = 500).
Proof.
  intros failure outcome.
  assert (Hempty : forall w,
      get_current_weather httpx_get WEATHER_API_KEY
        (lat (req_location request)) (lng (req_location request)) = Ok w ->
      generate_itinerary chat_completions_create json_loads request w
                         (Mongo.find_venues 100 db) = Ok [] ->
      outcome = (Raise failure, db) /\ reply_status (fst outcome) = 500).
  { intros w Hw Hg.
    assert (Ho : outcome = (Raise failure, db)).
    { subst outcome failure. unfold create_day_plan. rewrite Hw. simpl.
      rewrite Hg. reflexivity. }
    split; [exact Ho | rewrite Ho; reflexivity]. }
  split; [reflexivity |].
  split; [exact Hempty |].
  intros Hdb.
  destruct (get_current_weather_total httpx_get WEATHER_API_KEY
              (lat (req_location request)) (lng (req_location request)))
    as [w Hw].
  apply (Hempty w Hw).
  unfold Mongo.find_venues. rewrite Hdb. simpl.
  apply generate_itinerary_no_venues.
Qed.

Lemma create_day_plan_empty_itinerary_witness :
  create_day_plan http_down chat_down (loads_as []) "key" "plan-1" 0
                  "2024-01-01" class_name sample_request empty_db =
  (Raise (HTTPException 500 "Failed to generate itinerary."), empty_db).
Proof.
  refine (proj1 (proj2 (proj2 (create_day_plan_empty_itinerary
            http_down chat_down (loads_as []) "key" "plan-1" 0
            "2024-01-01" class_name sample_request empty_db)) _)).
  reflexivity.
Defined.

(** ** The seeding script *)

Lemma index_eqb_refl (spec : string * string) : Mongo.index_eqb spec spec = true.
Proof. unfold Mongo.index_eqb. now rewrite !String.eqb_refl. Qed.

Lemma create_index_present (spec : string * string) (db : DB) :
  existsb (Mongo.index_eqb spec)
          (venues_indexes (Mongo.create_index_venues spec db)) = true.
Proof.
  unfold Mongo.create_index_venues.
  destruct (existsb (Mongo.index_eqb spec) (venues_indexes db)) eqn:E.
  - exact E.
  - simpl. rewrite existsb_app. simpl. rewrite index_eqb_refl.
    now rewrite orb_true_r.
Qed.

Lemma create_index_documents (spec : string * string) (db : DB) :
  venues_collection (Mongo.create_index_venues spec db) = venues_collection db /\
  plans_collection (Mongo.create_index_venues spec db) = plans_collection db.
Proof.
  unfold Mongo.create_index_venues.
  destruct (existsb _ _); split; reflexivity.
Qed.

Lemma populate_database_documents (db : DB) :
  venues_collection (fst (PopulateDb.populate_database db)) =
  PopulateDb.OUR_VENUES.
Proof.
  unfold PopulateDb.populate_database. simpl fst.
  now rewrite (proj1 (create_index_documents _ _)).
Qed.

Lemma populate_database_fixed (db : DB) :
  venues_collection db = PopulateDb.OUR_VENUES ->
  existsb (Mongo.index_eqb ("location", "2dsphere")) (venues_indexes db) = true ->
  fst (PopulateDb.populate_database db) = db.
Proof.
  destruct db as [docs idx plans]. simpl. intros -> Hidx.
  unfold PopulateDb.populate_database, Mongo.create_index_venues,
    Mongo.insert_many_venues, Mongo.delete_many_venues.
  simpl. rewrite Hidx. reflexivity.
Qed.

(** C9. Seeding is idempotent: from any state of the database, a second run
    leaves exactly the state the first run left; after a run the venues
    collection holds the documents of the fixed list, whatever it held
    before, and the total each run reports is the length of the fixed list. *)
Theorem populate_database_idempotent (db : DB) :
  let once := PopulateDb.populate_database db in
  let twice := PopulateDb.populate_database (fst once) in
  fst twice = fst once /\
  venues_collection (fst once) = PopulateDb.OUR_VENUES /\
  (forall db', venues_collection (fst (PopulateDb.populate_database db')) =
               venues_collection (fst once)) /\
  snd once = Z.of_nat (List.length PopulateDb.OUR_VENUES) /\
  snd twice = Z.of_nat (List.length PopulateDb.OUR_VENUES) /\
  Mongo.count_venues (fst once) = 7.
Proof.
  intros once twice.
  assert (Hdocs : forall d,
             venues_collection (fst (PopulateDb.populate_database d)) =
             PopulateDb.OUR_VENUES) by apply populate_database_documents.
  assert (Hcount : forall d,
             snd (PopulateDb.populate_database d) =
             Z.of_nat (List.length PopulateDb.OUR_VENUES)).
  { intros d. change (snd (PopulateDb.populate_database d))
      with (Mongo.count_venues (fst (PopulateDb.populate_database d))).
    unfold Mongo.count_venues. now rewrite Hdocs. }
  split; [| split; [apply Hdocs | split; [| split; [apply Hcount | split]]]].
  - subst twice. apply populate_database_fixed; [apply Hdocs |].
    subst once. unfold PopulateDb.populate_database. simpl fst.
    apply create_index_present.
  - intros db'. subst once. now rewrite !Hdocs.
  - apply Hcount.
  - unfold Mongo.count_venues. subst once. now rewrite Hdocs.
Qed.

Lemma populate_database_idempotent_witness :
  fst (PopulateDb.populate_database (fst (PopulateDb.populate_database empty_db)))
  = fst (PopulateDb.populate_database empty_db) /\
  snd (PopulateDb.populate_database empty_db) = 7.
Proof.
  split.
  - exact (proj1 (populate_database_idempotent empty_db)).
  - reflexivity.
Defined.

(** ** Planning over the seeded catalog *)

Lemma fallback_planning_seeded request weather :
  fallback_planning request weather PopulateDb.OUR_VENUES =
  Raise (KeyError "estimated_duration").
Proof. reflexivity. Qed.

Lemma generate_itinerary_seeded chat_completions_create json_loads
      request weather :
  generate_itinerary chat_completions_create json_loads request weather
                     PopulateDb.OUR_VENUES =
  Raise (KeyError "estimated_duration").
Proof. reflexivity. Qed.

(** The documents the seeding script writes carry no "estimated_duration"
    (nor "id", "opening_hours" or an address): over the seeded catalog the
    prompt building raises on the first venue, the fallback strategy raises
    in its turn on the best-rated venue, and plan creation answers with
    status 500 without persisting a plan, whatever the services answer. *)
Theorem create_day_plan_seeded_catalog
    httpx_get chat_completions_create json_loads
    (WEATHER_API_KEY uuid4 : string) (now : Z) (today : string)
    (exn_str : exn -> string) (request : PlanRequest) (db : DB) :
  let seeded := fst (PopulateDb.populate_database db) in
  let outcome :=
    create_day_plan httpx_get chat_completions_create json_loads
                    WEATHER_API_KEY uuid4 now today exn_str request seeded in
  (forall weather,
      fallback_planning request weather (venues_collection seeded) =
      Raise (KeyError "estimated_duration")) /\
  outcome =
  (Raise (HTTPException 500 (exn_str (KeyError "estimated_duration"))), seeded) /\
  reply_status (fst outcome) = 500.
Proof.
  intros seeded outcome.
  assert (Hdocs : venues_collection seeded = PopulateDb.OUR_VENUES)
    by apply populate_database_documents.
  assert (Ho : outcome =
    (Raise (HTTPException 500 (exn_str (KeyError "estimated_duration"))), seeded)).
  { subst outcome. unfold create_day_plan.
    destruct (get_current_weather_total httpx_get WEATHER_API_KEY
                (lat (req_location request)) (lng (req_location request)))
      as [w ->].
    simpl bind. unfold Mongo.find_venues. rewrite Hdocs.
    change (firstn 100 PopulateDb.OUR_VENUES) with PopulateDb.OUR_VENUES.
    rewrite generate_itinerary_seeded. reflexivity. }
  split; [intros weather; rewrite Hdocs; apply fallback_planning_seeded |].
  split; [exact Ho | rewrite Ho; reflexivity].
Qed.


(** * Further properties of the code *)

(** ** The fallback keeps the best-rated venues *)

Lemma insert_desc_perm {A : Type} (k : Q) (x : A) (l : list (Q * A)) :
  Permutation (Sort.insert_desc k x l) ((k, x) :: l).
Proof.
  induction l as [| [k' y] t IH]; simpl.
  - apply Permutation_refl.
  - destruct (Qle_bool k' k).
    + apply Permutation_refl.
    + eapply Permutation_trans; [apply perm_skip; exact IH | apply perm_swap].
Qed.

Lemma sort_desc_perm {A : Type} (l : list (Q * A)) :
  Permutation (Sort.sort_desc l) l.
Proof.
  induction l as [| [k x] t IH]; simpl.
  - apply Permutation_refl.
  - eapply Permutation_trans; [apply insert_desc_perm |].
    apply perm_skip. exact IH.
Qed.

Lemma ranked_perm (vs : list Venue) : Permutation (ranked vs) vs.
Proof.
  unfold ranked.
  eapply Permutation_trans; [apply Permutation_map, sort_desc_perm |].
  rewrite map_map. simpl. rewrite map_id. apply Permutation_refl.
Qed.

Lemma StronglySorted_app_order {A : Type} (R : A -> A -> Prop) (l1 l2 : list A) :
  StronglySorted R (l1 ++ l2) ->
  forall a b, In a l1 -> In b l2 -> R a b.
Proof.
  induction l1 as [| x t IH]; simpl; intros H a b Ha Hb; [contradiction |].
  inversion H as [| ? ? Ht Hall]; subst.
  destruct Ha as [<- | Ha].
  - rewrite Forall_forall in Hall. apply Hall, in_or_app. now right.
  - now apply IH.
Qed.

(** X2. On candidates that validate, every itinerary the fallback strategy
    returns holds the best-rated venues: the candidates are, up to order, the
    venues of the itinerary followed by the dropped ones (all but five), and
    no dropped venue has a rating above that of a venue of the itinerary. *)
Theorem fallback_planning_keeps_best
    (request : PlanRequest) (weather : WeatherData)
    (venues : list VenueDoc) (vs : list Venue)
    (itinerary : list ItineraryItem) :
  parse_venues venues = Ok vs ->
  fallback_planning request weather venues = Ok itinerary ->
  exists dropped,
    Permutation vs (map venue itinerary ++ dropped) /\
    List.length dropped = (List.length vs - 5)%nat /\
    forall kept d, In kept (map venue itinerary) -> In d dropped ->
                   (rating d <= rating kept)%Q.
Proof.
  intros Hvs H. rewrite (fallback_planning_validates _ _ _ _ Hvs) in H.
  destruct (fits_clock (firstn 5 (ranked vs)) 540); [| discriminate H].
  assert (He : itinerary = pack (firstn 5 (ranked vs)) 540) by congruence.
  subst itinerary. clear H.
  exists (skipn 5 (ranked vs)).
  rewrite pack_venues. split; [| split].
  - rewrite firstn_skipn. apply Permutation_sym, ranked_perm.
  - now rewrite length_skipn, ranked_length.
  - intros kept d Hk Hd.
    pose proof (ranked_sorted vs) as Hs.
    rewrite <- (firstn_skipn 5 (ranked vs)) in Hs.
    exact (StronglySorted_app_order _ _ _ Hs kept d Hk Hd).
Qed.

Lemma fallback_planning_keeps_best_witness :
  exists dropped,
    Permutation (central_park :: long_day)
                (map venue (pack (firstn 5 (ranked (central_park :: long_day)))
                                 540) ++ dropped) /\
    List.length dropped = 1%nat /\
    forall kept d,
      In kept (map venue (pack (firstn 5 (ranked (central_park :: long_day)))
                               540)) ->
      In d dropped -> (rating d <= rating kept)%Q.
Proof.
  apply (fallback_planning_keeps_best sample_request WEATHER_FALLBACK
           (map Venue_doc (central_park :: long_day)) (central_park :: long_day)
           (pack (firstn 5 (ranked (central_park :: long_day))) 540)).
  - reflexivity.
  - reflexivity.
Defined.

(** ** A candidate without a rating *)

Lemma rating_keys_missing (venues : list VenueDoc) :
  Exists (fun d => doc_rating d = None) venues ->
  mapM rating_key venues = Raise (KeyError "rating").
Proof.
  induction venues as [| d rest IH]; intros H.
  - inversion H.
  - simpl. unfold rating_key at 1.
    destruct (doc_rating d) as [r |] eqn:Hr; simpl; [| reflexivity].
    inversion H as [? ? Hd | ? ? Hrest]; subst; [congruence |].
    now rewrite IH.
Qed.

(** X3. The sort reads the rating of every candidate: when any document of
    the list has no "rating", wherever it stands and however many candidates
    there are, the fallback strategy raises KeyError("rating") and returns no
    itinerary. *)
Theorem fallback_planning_missing_rating
    (request : PlanRequest) (weather : WeatherData) (venues : list VenueDoc) :
  Exists (fun d => doc_rating d = None) venues ->
  fallback_planning request weather venues = Raise (KeyError "rating").
Proof.
  intros H. unfold fallback_planning, Sort.sorted_reverse.
  now rewrite (rating_keys_missing _ H).
Qed.

Lemma fallback_planning_missing_rating_witness :
  fallback_planning sample_request WEATHER_FALLBACK
                    (sample_docs ++ [unrated_doc]) = Raise (KeyError "rating").
Proof.
  apply (fallback_planning_missing_rating sample_request WEATHER_FALLBACK
           (sample_docs ++ [unrated_doc])).
  apply Exists_exists. exists unrated_doc. split; [| reflexivity].
  simpl. tauto.
Defined.

(** ** The range of the clock *)

Lemma fits_clock_short_visits (vs : list Venue) :
  Forall (fun v => 0 <= estimated_duration v <= 1440) vs ->
  forall t,
    0 <= t ->
    t + 1470 * Z.of_nat (List.length vs) <= Clock.datetime_max ->
    fits_clock vs t = true.
Proof.
  induction 1 as [| v rest Hv Hrest IH]; intros t Ht Hmax; simpl.
  - reflexivity.
  - change (List.length (v :: rest)) with (S (List.length rest)) in Hmax.
    rewrite Nat2Z.inj_succ in Hmax.
    unfold Clock.in_range, Clock.datetime_min. unfold Clock.datetime_max in *.
    rewrite IH by lia.
    repeat rewrite andb_true_iff. repeat split;
      first [apply Z.leb_le | idtac]; lia.
Qed.

(** X4. On candidates that validate, and for every behaviour of the chat
    service, the planner returns the best-rated five packed from 09:00 when
    their running clock stays in the range of [datetime], and otherwise
    raises OverflowError, out of the handler that called the fallback. *)
Theorem generate_itinerary_clock_range
    chat_completions_create json_loads
    (request : PlanRequest) (weather : WeatherData)
    (venues : list VenueDoc) (vs : list Venue) :
  parse_venues venues = Ok vs ->
  generate_itinerary chat_completions_create json_loads request weather venues
  = if fits_clock (firstn 5 (ranked vs)) 540
    then Ok (pack (firstn 5 (ranked vs)) 540)
    else Raise OverflowError.
Proof.
  intros Hvs. rewrite generate_itinerary_is_fallback.
  apply fallback_planning_validates. exact Hvs.
Qed.

Lemma generate_itinerary_clock_range_witness :
  generate_itinerary chat_down (loads_as []) sample_request WEATHER_FALLBACK
                     [Venue_doc endless_visit] = Raise OverflowError.
Proof.
  apply (generate_itinerary_clock_range chat_down (loads_as [])
           sample_request WEATHER_FALLBACK
           [Venue_doc endless_visit] [endless_visit]).
  reflexivity.
Defined.

(** X21. On candidates that validate and whose visits last between 0 and
    1440 minutes each, the planner never raises, whatever the chat service
    does: it returns the best-rated five packed from 09:00, at least one item
    when there is a candidate. *)
Theorem generate_itinerary_short_visits
    chat_completions_create json_loads
    (request : PlanRequest) (weather : WeatherData)
    (venues : list VenueDoc) (vs : list Venue) :
  parse_venues venues = Ok vs ->
  Forall (fun v => 0 <= estimated_duration v <= 1440) vs ->
  generate_itinerary chat_completions_create json_loads request weather venues
  = Ok (pack (firstn 5 (ranked vs)) 540) /\
  (venues <> [] -> pack (firstn 5 (ranked vs)) 540 <> []).
Proof.
  intros Hvs Hshort. split.
  - rewrite generate_itinerary_is_fallback,
      (fallback_planning_validates _ _ _ _ Hvs).
    rewrite fits_clock_short_visits; [reflexivity | | lia |].
    + rewrite Forall_forall in *. intros v Hv. apply Hshort.
      eapply Permutation_in; [apply ranked_perm |].
      rewrite <- (firstn_skipn 5 (ranked vs)). apply in_or_app. now left.
    + pose proof (firstn_le_length 5 (ranked vs)) as Hlen.
      unfold Clock.datetime_max. lia.
  - intros Hne Hnil. apply (f_equal (@List.length _)) in Hnil.
    rewrite pack_length, length_firstn, ranked_length in Hnil.
    apply parse_venues_Forall2, Forall2_length_eq in Hvs.
    destruct venues; [congruence |]. simpl List.length in Hvs, Hnil. lia.
Qed.

Lemma generate_itinerary_short_visits_witness :
  generate_itinerary chat_down (loads_as []) sample_request WEATHER_FALLBACK
                     sample_docs = Ok sample_itinerary.
Proof.
  apply (proj1 (generate_itinerary_short_visits chat_down (loads_as [])
                  sample_request WEATHER_FALLBACK sample_docs
                  [coffee_corner; central_park] eq_refl
                  ltac:(repeat constructor; simpl; lia))).
Defined.

(** ** What the planner reads *)



(** ** The weather lookup on a response that arrives *)

(** X7. When the weather API answers with a status in 200..299 and a JSON
    body that carries main.temp, main.feels_like, main.humidity and, in the
    first entry of "weather", description and main, the lookup returns exactly
    those five values; later entries of "weather" are not read. *)
Theorem get_current_weather_success
    (httpx_get : string -> Q * Q * string * string -> Z -> result HttpResponse)
    (WEATHER_API_KEY : string) (lat lng : Q)
    (response : HttpResponse) (data : OwmData) (main : OwmMain)
    (w0 : OwmWeather) (others : list OwmWeather)
    (temp feels : Q) (hum : Z) (desc wmain : string) :
  httpx_get weather_url (lat, lng, WEATHER_API_KEY, "metric") 10 = Ok response ->
  200 <= status_code response < 300 ->
  json response = Ok data ->
  data_main data = Some main ->
  data_weather data = Some (w0 :: others) ->
  owm_temp main = Some temp ->
  owm_feels_like main = Some feels ->
  owm_humidity main = Some hum ->
  owm_description w0 = Some desc ->
  owm_main w0 = Some wmain ->
  get_current_weather httpx_get WEATHER_API_KEY lat lng =
  Ok (mkWeatherData temp desc feels hum wmain).
Proof.
  intros Hr Hs Hj Hm Hw Ht Hf Hh Hd Hwm.
  unfold get_current_weather. rewrite Hr. simpl.
  unfold raise_for_status.
  replace ((200 <=? status_code response) && (status_code response <? 300))
    with true
    by (symmetry; apply andb_true_iff; split;
        [apply Z.leb_le | apply Z.ltb_lt]; lia).
  simpl. rewrite Hj. simpl. rewrite Hm. simpl. rewrite Ht. simpl.
  rewrite Hw. simpl. rewrite Hd. simpl. rewrite Hf. simpl. rewrite Hh. simpl.
  rewrite Hwm. reflexivity.
Qed.

Lemma get_current_weather_success_witness :
  get_current_weather (http_says rainy_data) "key" 40.7589 (-73.9851) =
  Ok (mkWeatherData 11.5 "light rain" 9.0 93 "Rain").
Proof.
  apply (get_current_weather_success (http_says rainy_data) "key"
           40.7589 (-73.9851) (mkHttpResponse 200 (Ok rainy_data)) rainy_data
           rainy_main rainy_entry [] 11.5 9.0 93 "light rain" "Rain");
    try reflexivity.
  simpl. lia.
Defined.

(** X8. A response that arrives but is incomplete gives the fixed fallback
    snapshot, never a partial one: this holds when the body is not JSON, when
    "main" or "weather" is absent, when "weather" is an empty list, and when
    any of the five fields read is absent. *)
Theorem get_current_weather_incomplete
    (httpx_get : string -> Q * Q * string * string -> Z -> result HttpResponse)
    (WEATHER_API_KEY : string) (lat lng : Q) (response : HttpResponse) :
  httpx_get weather_url (lat, lng, WEATHER_API_KEY, "metric") 10 = Ok response ->
  (exists e, json response = Raise e) \/
  (exists data,
      json response = Ok data /\
      (data_main data = None \/
       data_weather data = None \/
       data_weather data = Some [] \/
       (exists main, data_main data = Some main /\
                     (owm_temp main = None \/ owm_feels_like main = None \/
                      owm_humidity main = None)) \/
       (exists w0 others, data_weather data = Some (w0 :: others) /\
                          (owm_description w0 = None \/ owm_main w0 = None)))) ->
  get_current_weather httpx_get WEATHER_API_KEY lat lng = Ok WEATHER_FALLBACK.
Proof.
  intros Hr Hbad. unfold get_current_weather. rewrite Hr. simpl.
  destruct (raise_for_status response) as [[] | e0]; simpl; [| reflexivity].
  destruct Hbad as [[e ->] | (data & -> & Hbad)]; simpl; [reflexivity |].
  destruct (data_main data) as [main |] eqn:Hm; simpl; [| reflexivity].
  destruct (owm_temp main) as [temp |] eqn:Ht; simpl; [| reflexivity].
  destruct (data_weather data) as [[| w0 others] |] eqn:Hw; simpl;
    try reflexivity.
  destruct (owm_description w0) as [desc |] eqn:Hd; simpl; [| reflexivity].
  destruct (owm_feels_like main) as [feels |] eqn:Hf; simpl; [| reflexivity].
  destruct (owm_humidity main) as [hum |] eqn:Hh; simpl; [| reflexivity].
  destruct (owm_main w0) as [wmain |] eqn:Hwm; simpl; [| reflexivity].
  exfalso.
  destruct Hbad as [H | [H | [H | [(m & Hm' & H) | (w & o & Hw' & H)]]]];
    try discriminate H.
  - injection Hm' as <-. destruct H as [H | [H | H]]; congruence.
  - injection Hw' as <- <-. destruct H as [H | H]; congruence.
Qed.

Lemma get_current_weather_incomplete_witness :
  get_current_weather (http_says no_humidity_data) "key" 40.7589 (-73.9851) =
  Ok WEATHER_FALLBACK.
Proof.
  apply (get_current_weather_incomplete (http_says no_humidity_data) "key"
           40.7589 (-73.9851) (mkHttpResponse 200 (Ok no_humidity_data))).
  - reflexivity.
  - right. exists no_humidity_data. split; [reflexivity |].
    right. right. right. left. eexists. split; [reflexivity |].
    right. right. reflexivity.
Defined.

(** ** What plan creation does to the database *)

(** X9. Plan creation never writes to the venues collection or its
    indexes.  On success it appends exactly the plan it returns to the plans
    collection, and that plan has a non-empty itinerary, the generated id,
    the location and the budget of the request, and the cost summed over its
    itinerary.  On failure the database is unchanged and the exception is
    always an HTTP exception of status 500. *)
Theorem create_day_plan_effects
    httpx_get chat_completions_create json_loads
    (WEATHER_API_KEY uuid4 : string) (now : Z) (today : string)
    (exn_str : exn -> string) (request : PlanRequest) (db : DB) :
  let outcome :=
    create_day_plan httpx_get chat_completions_create json_loads
                    WEATHER_API_KEY uuid4 now today exn_str request db in
  venues_collection (snd outcome) = venues_collection db /\
  venues_indexes (snd outcome) = venues_indexes db /\
  match fst outcome with
  | Ok plan =>
      plans_collection (snd outcome) = plans_collection db ++ [plan] /\
      itinerary plan <> [] /\
      plan_id plan = uuid4 /\
      plan_location plan = req_location request /\
      total_budget plan = budget request /\
      estimated_cost plan = sum_prices (itinerary plan)
  | Raise e =>
      snd outcome = db /\ exists detail, e = HTTPException 500 detail
  end.
Proof.
  intros outcome. subst outcome. unfold create_day_plan.
  destruct (get_current_weather _ _ _ _) as [w | e]; simpl.
  - destruct (generate_itinerary _ _ _ _ _) as [[| i rest] | e]; simpl.
    + repeat split. eexists. reflexivity.
    + unfold Mongo.insert_one_plan.
      destruct (Mongo.bson_encodable _); simpl.
      * repeat split. discriminate.
      * repeat split. eexists. reflexivity.
    + repeat split. eexists. reflexivity.
  - repeat split. eexists. reflexivity.
Qed.

(** ** Bounds on the estimated cost *)

Lemma dict_get_price_map_bounds (t : string) :
  0 <= dict_get price_map t 0 <= 150.
Proof.
  unfold price_map, dict_get.
  repeat match goal with |- context [String.eqb ?a t] =>
    destruct (String.eqb a t) end; simpl; lia.
Qed.

Lemma sum_prices_bounds (items : list ItineraryItem) :
  0 <= sum_prices items <= 150 * Z.of_nat (List.length items).
Proof.
  unfold sum_prices. rewrite fold_left_add.
  induction items as [| i rest IH].
  - simpl. lia.
  - pose proof (dict_get_price_map_bounds (price_range (venue i))) as Hb.
    change (List.length (i :: rest)) with (S (List.length rest)).
    rewrite Nat2Z.inj_succ.
    change (sum_Z (map (fun item => dict_get price_map (price_range (venue item)) 0)
                       (i :: rest)))
      with (dict_get price_map (price_range (venue i)) 0 +
            sum_Z (map (fun item => dict_get price_map (price_range (venue item)) 0)
                       rest)).
    lia.
Qed.

(** X12. The estimated cost of a created plan is never negative and is at
    most 150 per item of its itinerary; it is never compared with the budget
    of the request, which is copied into the plan as it is. *)
Theorem estimated_cost_bounds
    httpx_get chat_completions_create json_loads
    (WEATHER_API_KEY uuid4 : string) (now : Z) (today : string)
    (exn_str : exn -> string) (request : PlanRequest) (db db' : DB)
    (plan : DayPlan) :
  create_day_plan httpx_get chat_completions_create json_loads WEATHER_API_KEY
                  uuid4 now today exn_str request db = (Ok plan, db') ->
  0 <= estimated_cost plan <= 150 * Z.of_nat (List.length (itinerary plan)) /\
  total_budget plan = budget request.
Proof.
  intros H. apply create_day_plan_ok in H.
  destruct H as (w & items & _ & _ & -> & _). simpl.
  split; [apply sum_prices_bounds | reflexivity].
Qed.

Lemma estimated_cost_bounds_witness :
  exists plan,
    fst (create_day_plan http_down chat_down (loads_as []) "key" "plan-1" 0
           "2024-01-01" class_name other_request sample_db) = Ok plan /\
    0 <= estimated_cost plan <= 150 * Z.of_nat (List.length (itinerary plan)) /\
    total_budget plan = 0 /\ estimated_cost plan = 75.
Proof.
  eexists. split; [reflexivity |].
  destruct (estimated_cost_bounds http_down chat_down (loads_as []) "key"
              "plan-1" 0 "2024-01-01" class_name other_request sample_db _ _
              eq_refl) as [Hb Ht].
  split; [exact Hb |]. split; [exact Ht | reflexivity].
Defined.

(** ** Plan creation that succeeds, and the 8-byte limit *)

Lemma in_range_bson (t d : Z) :
  Clock.in_range t = true -> Clock.in_range (t + d) = true ->
  Mongo.bson_int d = true.
Proof.
  unfold Clock.in_range, Clock.datetime_min, Clock.datetime_max, Mongo.bson_int.
  rewrite !andb_true_iff, !Z.leb_le, Z.ltb_lt. lia.
Qed.

Lemma pack_durations_bson (vs : list Venue) :
  forall t,
    Clock.in_range t = true ->
    fits_clock vs t = true ->
    forallb (fun item => Mongo.bson_int (estimated_duration (venue item)))
            (pack vs t) = true.
Proof.
  induction vs as [| v rest IH]; intros t Ht Hfits; simpl; [reflexivity |].
  simpl in Hfits. apply andb_true_iff in Hfits. destruct Hfits as [Hfits Hrest].
  apply andb_true_iff in Hfits. destruct Hfits as [He Hnext].
  rewrite (in_range_bson t (estimated_duration v) Ht He). simpl.
  apply IH; assumption.
Qed.

Lemma sum_prices_bson (items : list ItineraryItem) :
  (List.length items <= 5)%nat -> Mongo.bson_int (sum_prices items) = true.
Proof.
  intros Hlen. pose proof (sum_prices_bounds items) as Hb.
  unfold Mongo.bson_int. rewrite andb_true_iff, Z.leb_le, Z.ltb_lt. lia.
Qed.

(** X10. The chat service is no single point of failure: whatever it does,
    when the catalog read (its first 100 documents) is non-empty and
    validates, the clock of the five best-rated venues stays in range, and
    the budget and the humidity of the weather snapshot fit in 8 bytes, plan
    creation succeeds with status 200, persists the plan it returns, and the
    itinerary of that plan is the best-rated five packed from 09:00. *)
Theorem create_day_plan_succeeds
    httpx_get chat_completions_create json_loads
    (WEATHER_API_KEY uuid4 : string) (now : Z) (today : string)
    (exn_str : exn -> string) (request : PlanRequest) (db : DB)
    (vs : list Venue) (w : WeatherData) :
  parse_venues (Mongo.find_venues 100 db) = Ok vs ->
  vs <> [] ->
  fits_clock (firstn 5 (ranked vs)) 540 = true ->
  Mongo.bson_int (budget request) = true ->
  get_current_weather httpx_get WEATHER_API_KEY
    (lat (req_location request)) (lng (req_location request)) = Ok w ->
  Mongo.bson_int (humidity w) = true ->
  let items := pack (firstn 5 (ranked vs)) 540 in
  let plan := mkDayPlan uuid4 (req_location request) today w (budget request)
                        (sum_prices items) items now in
  let outcome :=
    create_day_plan httpx_get chat_completions_create json_loads
                    WEATHER_API_KEY uuid4 now today exn_str request db in
  outcome = (Ok plan, mkDB (venues_collection db) (venues_indexes db)
                           (plans_collection db ++ [plan])) /\
  items <> [] /\
  reply_status (fst outcome) = 200.
Proof.
  intros Hvs Hne Hfits Hbudget Hw Hhum. cbv zeta.
  set (items := pack (firstn 5 (ranked vs)) 540).
  assert (Hitems : items <> []).
  { subst items. intros Hnil. apply (f_equal (@List.length _)) in Hnil.
    rewrite pack_length, length_firstn, ranked_length in Hnil.
    destruct vs; [congruence |]. simpl List.length in Hnil. lia. }
  assert (Hdur : forallb (fun item => Mongo.bson_int
                            (estimated_duration (venue item))) items = true).
  { apply pack_durations_bson; [reflexivity | exact Hfits]. }
  assert (Hcost : Mongo.bson_int (sum_prices items) = true).
  { apply sum_prices_bson. subst items. rewrite pack_length, length_firstn.
    lia. }
  assert (Ho :
    create_day_plan httpx_get chat_completions_create json_loads
                    WEATHER_API_KEY uuid4 now today exn_str request db =
    (Ok (mkDayPlan uuid4 (req_location request) today w (budget request)
                   (sum_prices items) items now),
     mkDB (venues_collection db) (venues_indexes db)
          (plans_collection db ++
           [mkDayPlan uuid4 (req_location request) today w (budget request)
                      (sum_prices items) items now]))).
  { unfold create_day_plan. rewrite Hw. cbn [bind].
    rewrite generate_itinerary_is_fallback,
      (fallback_planning_validates _ _ _ _ Hvs), Hfits.
    fold items. cbn [bind].
    destruct items as [| i rest]; [congruence |]. cbn [bind].
    unfold Mongo.insert_one_plan, Mongo.bson_encodable.
    cbn [total_budget estimated_cost weather itinerary].
    rewrite Hbudget, Hcost, Hhum, Hdur. reflexivity. }
  split; [exact Ho |]. split; [exact Hitems | rewrite Ho; reflexivity].
Qed.

Lemma create_day_plan_succeeds_witness :
  fst (create_day_plan http_down (chat_says reply_text) (loads_as museum_stops)
         "key" "plan-1" 0 "2024-01-01" class_name sample_request sample_db) =
  Ok (mkDayPlan "plan-1" (req_location sample_request) "2024-01-01"
                WEATHER_FALLBACK 100 75 sample_itinerary 0).
Proof.
  refine (f_equal fst (proj1 (create_day_plan_succeeds
            http_down (chat_says reply_text) (loads_as museum_stops)
            "key" "plan-1" 0 "2024-01-01" class_name sample_request sample_db
            [coffee_corner; central_park] WEATHER_FALLBACK _ _ _ _ _ _)));
    try reflexivity.
  discriminate.
Defined.

(** X20. A budget that does not fit in 8 bytes is accepted by the request
    model and rejected by the database encoder: plan creation then always
    fails with status 500 and persists nothing; when the itinerary could be
    built, the failure is the OverflowError of the encoder. *)
Theorem create_day_plan_budget_overflow
    httpx_get chat_completions_create json_loads
    (WEATHER_API_KEY uuid4 : string) (now : Z) (today : string)
    (exn_str : exn -> string) (request : PlanRequest) (db : DB) :
  Mongo.bson_int (budget request) = false ->
  let outcome :=
    create_day_plan httpx_get chat_completions_create json_loads
                    WEATHER_API_KEY uuid4 now today exn_str request db in
  snd outcome = db /\
  (exists detail, fst outcome = Raise (HTTPException 500 detail)) /\
  reply_status (fst outcome) = 500 /\
  (forall w i rest,
      get_current_weather httpx_get WEATHER_API_KEY
        (lat (req_location request)) (lng (req_location request)) = Ok w ->
      generate_itinerary chat_completions_create json_loads request w
                         (Mongo.find_venues 100 db) = Ok (i :: rest) ->
      fst outcome = Raise (HTTPException 500 (exn_str OverflowError))).
Proof.
  intros Hbudget outcome. subst outcome. unfold create_day_plan.
  destruct (get_current_weather _ _ _ _) as [w | e]; simpl.
  - destruct (generate_itinerary _ _ _ _ _) as [[| i rest] | e] eqn:Hg; simpl.
    + repeat split; try (eexists; reflexivity).
      intros w0 i0 rest0 Hw0 Hg0. injection Hw0 as <-.
      rewrite Hg in Hg0. discriminate Hg0.
    + unfold Mongo.insert_one_plan, Mongo.bson_encodable.
      cbn [total_budget]. rewrite Hbudget. simpl.
      repeat split; try (eexists; reflexivity).
    + repeat split; try (eexists; reflexivity).
      intros w0 i0 rest0 Hw0 Hg0. injection Hw0 as <-.
      rewrite Hg in Hg0. discriminate Hg0.
  - repeat split; try (eexists; reflexivity).
    intros w0 i0 rest0 Hw0. discriminate Hw0.
Qed.

Lemma create_day_plan_budget_overflow_witness :
  fst (create_day_plan http_down chat_down (loads_as []) "key" "plan-1" 0
         "2024-01-01" class_name huge_budget_request sample_db) =
  Raise (HTTPException 500 "OverflowError").
Proof.
  refine (proj2 (proj2 (proj2 (create_day_plan_budget_overflow
            http_down chat_down (loads_as []) "key" "plan-1" 0 "2024-01-01"
            class_name huge_budget_request sample_db _)))
          WEATHER_FALLBACK _ _ _ _);
    reflexivity.
Defined.

(** ** Startup and seeding *)

(** X13. The startup initialisation only ever fills an empty catalog: a
    catalog that holds a document is left exactly as it is, the catalog is
    never empty afterwards, indexes and plans are not touched, and running it
    again (with any ids) changes nothing. *)
Theorem init_sample_data_fills_empty_only (id1 id2 id3 id4 : string) (db : DB) :
  (venues_collection db <> [] -> init_sample_data id1 id2 db = db) /\
  (venues_collection db = [] ->
   venues_collection (init_sample_data id1 id2 db) = SAMPLE_VENUES id1 id2) /\
  venues_collection (init_sample_data id1 id2 db) <> [] /\
  venues_indexes (init_sample_data id1 id2 db) = venues_indexes db /\
  plans_collection (init_sample_data id1 id2 db) = plans_collection db /\
  init_sample_data id3 id4 (init_sample_data id1 id2 db) =
  init_sample_data id1 id2 db.
Proof.
  unfold init_sample_data, Mongo.count_venues, Mongo.insert_many_venues.
  destruct db as [[| d rest] idx plans]; simpl;
    repeat split; try discriminate; congruence.
Qed.

Lemma init_sample_data_fills_empty_only_witness :
  init_sample_data "a" "b" sample_db = sample_db /\
  venues_collection (init_sample_data "venue-1" "venue-2" empty_db) = sample_docs.
Proof.
  split.
  - apply (proj1 (init_sample_data_fills_empty_only "a" "b" "c" "d" sample_db)).
    discriminate.
  - apply (proj1 (proj2 (init_sample_data_fills_empty_only
                           "venue-1" "venue-2" "c" "d" empty_db))).
    reflexivity.
Defined.

(** X14. Seeding replaces the documents of the catalog and nothing else: the
    plans collection is untouched, every index that existed is still there in
    the same order followed by at most one new one, and the 2dsphere index on
    "location" exists afterwards. *)
Theorem populate_database_preserves (db : DB) :
  let seeded := fst (PopulateDb.populate_database db) in
  plans_collection seeded = plans_collection db /\
  (venues_indexes seeded = venues_indexes db \/
   venues_indexes seeded = venues_indexes db ++ [("location", "2dsphere")]) /\
  In ("location", "2dsphere") (venues_indexes seeded) /\
  (In ("location", "2dsphere") (venues_indexes db) ->
   venues_indexes seeded = venues_indexes db).
Proof.
  intros seeded. subst seeded.
  unfold PopulateDb.populate_database, Mongo.create_index_venues,
    Mongo.insert_many_venues, Mongo.delete_many_venues. simpl.
  destruct (existsb (Mongo.index_eqb ("location", "2dsphere"))
                    (venues_indexes db)) eqn:E; simpl.
  - split; [reflexivity |]. split; [now left |]. split; [| reflexivity].
    apply existsb_exists in E. destruct E as [[f k] [Hin Heq]].
    unfold Mongo.index_eqb in Heq. cbn [fst snd] in Heq.
    apply andb_true_iff in Heq. destruct Heq as [Hf Hk].
    apply String.eqb_eq in Hf, Hk. now subst.
  - split; [reflexivity |]. split; [now right |].
    split; [apply in_or_app; right; now left |].
    intros Hin. exfalso.
    assert (Ht : existsb (Mongo.index_eqb ("location", "2dsphere"))
                         (venues_indexes db) = true).
    { apply existsb_exists. eexists. split; [exact Hin | apply index_eqb_refl]. }
    congruence.
Qed.

Lemma populate_database_preserves_witness :
  venues_indexes (fst (PopulateDb.populate_database
                         (mkDB sample_docs [("location", "2dsphere")] []))) =
  [("location", "2dsphere")].
Proof.
  apply (proj2 (proj2 (proj2 (populate_database_preserves
           (mkDB sample_docs [("location", "2dsphere")] []))))).
  simpl. tauto.
Defined.

(** X15. Seeding and startup compose: after seeding, the startup
    initialisation adds no sample venue; and seeding after startup leaves the
    state that seeding alone leaves, so the sample venues do not survive
    it. *)
Theorem populate_database_init_sample_data (id1 id2 : string) (db : DB) :
  init_sample_data id1 id2 (fst (PopulateDb.populate_database db)) =
  fst (PopulateDb.populate_database db) /\
  fst (PopulateDb.populate_database (init_sample_data id1 id2 db)) =
  fst (PopulateDb.populate_database db).
Proof.
  split.
  - unfold init_sample_data, Mongo.count_venues.
    rewrite populate_database_documents. reflexivity.
  - unfold init_sample_data.
    destruct (Mongo.count_venues db =? 0); reflexivity.
Qed.

(** ** What plan creation reads of the request *)

Lemma generate_itinerary_same_address chat_completions_create json_loads
      request1 request2 weather1 weather2 venues :
  address (req_location request1) = address (req_location request2) ->
  generate_itinerary chat_completions_create json_loads request1 weather1 venues =
  generate_itinerary chat_completions_create json_loads request2 weather2 venues.
Proof.
  intros Haddr. unfold generate_itinerary, generative_path, fallback_planning,
    user_prompt.
  now rewrite Haddr.
Qed.

(** X16. Plan creation reads the location and the budget of the request,
    and the budget only to copy it into the plan and to encode it: two
    requests for the same location whose budgets fit in 8 bytes, whatever
    those budgets, the interests, the durations and the group sizes, both fail
    with the same exception or both succeed with the same itinerary, weather
    and estimated cost. *)
Theorem create_day_plan_reads_location_only
    httpx_get chat_completions_create json_loads
    (WEATHER_API_KEY uuid4 : string) (now : Z) (today : string)
    (exn_str : exn -> string) (request1 request2 : PlanRequest) (db : DB) :
  req_location request1 = req_location request2 ->
  Mongo.bson_int (budget request1) = true ->
  Mongo.bson_int (budget request2) = true ->
  match
    fst (create_day_plan httpx_get chat_completions_create json_loads
           WEATHER_API_KEY uuid4 now today exn_str request1 db),
    fst (create_day_plan httpx_get chat_completions_create json_loads
           WEATHER_API_KEY uuid4 now today exn_str request2 db)
  with
  | Ok plan1, Ok plan2 =>
      itinerary plan1 = itinerary plan2 /\
      weather plan1 = weather plan2 /\
      estimated_cost plan1 = estimated_cost plan2 /\
      total_budget plan1 = budget request1 /\
      total_budget plan2 = budget request2
  | Raise e1, Raise e2 => e1 = e2
  | _, _ => False
  end.
Proof.
  intros Hloc Hb1 Hb2. unfold create_day_plan. rewrite <- Hloc.
  destruct (get_current_weather _ _ _ _) as [w | e]; simpl; [| reflexivity].
  rewrite (generate_itinerary_same_address chat_completions_create json_loads
             request2 request1 w w (Mongo.find_venues 100 db))
    by now rewrite Hloc.
  destruct (generate_itinerary _ _ request1 _ _) as [[| i rest] | e]; simpl.
  - reflexivity.
  - unfold Mongo.insert_one_plan, Mongo.bson_encodable.
    cbn [total_budget estimated_cost weather itinerary].
    rewrite Hb1, Hb2. cbn [andb].
    destruct (_ && _ && _); simpl; [repeat split | reflexivity].
  - reflexivity.
Qed.

Lemma create_day_plan_reads_location_only_witness :
  match
    fst (create_day_plan http_down chat_down (loads_as []) "key" "plan-1" 0
           "2024-01-01" class_name sample_request sample_db),
    fst (create_day_plan http_down chat_down (loads_as []) "key" "plan-1" 0
           "2024-01-01" class_name other_request sample_db)
  with
  | Ok plan1, Ok plan2 =>
      itinerary plan1 = itinerary plan2 /\
      weather plan1 = weather plan2 /\
      estimated_cost plan1 = estimated_cost plan2 /\
      total_budget plan1 = budget sample_request /\
      total_budget plan2 = budget other_request
  | Raise e1, Raise e2 => e1 = e2
  | _, _ => False
  end.
Proof.
  apply (create_day_plan_reads_location_only http_down chat_down (loads_as [])
           "key" "plan-1" 0 "2024-01-01" class_name sample_request
           other_request sample_db); reflexivity.
Defined.

(** ** No venue is invented *)

(** X18. The planner never invents a venue: on candidates that validate,
    every item of the itinerary it returns, on the generative path as on the
    fallback path, carries one of the candidates. *)
Theorem generate_itinerary_venues_are_candidates
    chat_completions_create json_loads
    (request : PlanRequest) (weather : WeatherData)
    (venues : list VenueDoc) (vs : list Venue)
    (items : list ItineraryItem) :
  parse_venues venues = Ok vs ->
  generate_itinerary chat_completions_create json_loads request weather venues
  = Ok items ->
  forall item, In item items -> In (venue item) vs.
Proof.
  intros Hvs H item Hin.
  rewrite generate_itinerary_is_fallback,
    (fallback_planning_validates _ _ _ _ Hvs) in H.
  destruct (fits_clock (firstn 5 (ranked vs)) 540); [| discriminate H].
  assert (He : items = pack (firstn 5 (ranked vs)) 540) by congruence.
  subst items. clear H.
  apply (in_map venue) in Hin. rewrite pack_venues in Hin.
  eapply Permutation_in; [apply ranked_perm |].
  rewrite <- (firstn_skipn 5 (ranked vs)). apply in_or_app. now left.
Qed.

Lemma generate_itinerary_venues_are_candidates_witness :
  In (venue (mkItineraryItem coffee_corner "11:30" "12:15" "A great choice."))
     [coffee_corner; central_park].
Proof.
  apply (generate_itinerary_venues_are_candidates
           (chat_says reply_text) (loads_as coffee_stops)
           sample_request WEATHER_FALLBACK sample_docs
           [coffee_corner; central_park] sample_itinerary).
  - reflexivity.
  - reflexivity.
  - simpl. tauto.
Defined.

(** ** The catalog read is bounded *)

Lemma find_venues_bounded (n : nat) (extra : list VenueDoc) (db : DB) :
  (n <= List.length (venues_collection db))%nat ->
  Mongo.find_venues n (Mongo.insert_many_venues extra db) =
  Mongo.find_venues n db.
Proof.
  intros Hlen. unfold Mongo.find_venues, Mongo.insert_many_venues. simpl.
  rewrite firstn_app.
  replace (n - List.length (venues_collection db))%nat with 0%nat by lia.
  simpl. apply app_nil_r.
Qed.

(** X19. Plan creation reads the first 100 documents of the catalog and no
    more: once the catalog holds 100 documents, documents inserted after them
    change nothing of the reply, however well they are rated. *)
Theorem create_day_plan_reads_100_venues
    httpx_get chat_completions_create json_loads
    (WEATHER_API_KEY uuid4 : string) (now : Z) (today : string)
    (exn_str : exn -> string) (request : PlanRequest) (db : DB)
    (extra : list VenueDoc) :
  (100 <= List.length (venues_collection db))%nat ->
  fst (create_day_plan httpx_get chat_completions_create json_loads
         WEATHER_API_KEY uuid4 now today exn_str request
         (Mongo.insert_many_venues extra db)) =
  fst (create_day_plan httpx_get chat_completions_create json_loads
         WEATHER_API_KEY uuid4 now today exn_str request db).
Proof.
  intros Hlen. unfold create_day_plan.
  rewrite (find_venues_bounded 100 extra db Hlen).
  destruct (get_current_weather _ _ _ _) as [w | e]; simpl; [| reflexivity].
  destruct (generate_itinerary _ _ _ _ _) as [[| i rest] | e]; simpl;
    try reflexivity.
  unfold Mongo.insert_one_plan.
  destruct (Mongo.bson_encodable _); reflexivity.
Qed.

Lemma create_day_plan_reads_100_venues_witness :
  fst (create_day_plan http_down chat_down (loads_as []) "key" "plan-1" 0
         "2024-01-01" class_name sample_request
         (Mongo.insert_many_venues [Venue_doc central_park] crowded_db)) =
  fst (create_day_plan http_down chat_down (loads_as []) "key" "plan-1" 0
         "2024-01-01" class_name sample_request crowded_db).
Proof.
  apply (create_day_plan_reads_100_venues http_down chat_down (loads_as [])
           "key" "plan-1" 0 "2024-01-01" class_name sample_request crowded_db
           [Venue_doc central_park]).
  unfold crowded_db. cbn [venues_collection]. rewrite repeat_length. lia.
Defined.
